(** * Subscription manager: webhook activation and initial subscription

    A shallow embedding of the four HTTP handlers of the repository
    (the two variants of [initializeRecurringPayment], [initializeSubscription]
    with [writeCustomerToDataverse], and [subscriptionValidatorTest]) and the
    properties the specification states about them.

    JavaScript values are an inductive type, numbers are binary64 floats, an
    [await]ed call to a collaborator is a transition of an abstract world that
    either returns or throws, and every call is recorded in a trace. *)

From Stdlib Require Import ZArith List String Ascii Bool Lia.
From Stdlib Require Import Floats.PrimFloat.
Import ListNotations.

Local Open Scope string_scope.
Local Open Scope Z_scope.

(** ** Results of a computation that may throw *)

Inductive Outcome (E A : Type) : Type :=
| Ok (a : A)
| Throw (e : E).
Arguments Ok {E A} a.
Arguments Throw {E A} e.

(** ** JavaScript values *)

Module JS.

(** What [request.json()], an axios response, a thrown value or a handler's
    [jsonBody] can hold.  A thrown object is described by the properties a
    read of it yields (own or inherited). *)
#[warnings="-register-all"]
Inductive Value : Type :=
| VUndefined
| VNull
| VBool (b : bool)
| VNumber (n : float)
| VString (s : string)
| VArray (items : list Value)
| VObject (fields : list (string * Value)).

(** The errors the engine itself raises in the handlers. *)
Inductive EngineError : Type :=
| ReadOfNullish (base : Value) (key : string)   (* TypeError: x.key, x null or undefined *)
| NotAFunction (receiver : Value) (key : string) (* TypeError: x.key(...) , x.key not callable *)
| NotPrimitive (v : Value)                       (* TypeError: object to primitive *)
| InvalidTime.                                   (* RangeError: toISOString of an invalid Date *)

(** What the handlers use of the JavaScript engine and of the platform
    classes ([Number.prototype.toString], the [URL] and [URLSearchParams]
    constructors, the host's time zone). *)
Record Runtime : Type := {
  engine_message : EngineError -> string;
  Number_toString : float -> string;
  LocalTZA : Z -> bool -> Z;
  URL_valid : string -> bool;
  URLSearchParams_get : string -> string -> option string
}.

Definition Result := Outcome Value.

(** The object the engine throws: only its [message] is ever read. *)
Definition engine_error (rt : Runtime) (e : EngineError) : Value :=
  VObject [("message", VString (engine_message rt e))].

(** [new Error(msg)] *)
Definition new_Error (msg : string) : Value :=
  VObject [("message", VString msg)].

Definition is_nullish (v : Value) : bool :=
  match v with
  | VUndefined | VNull => true
  | _ => false
  end.

(** ToBoolean: [undefined], [null], [false], [0], [-0], [NaN] and the empty
    string are falsy. *)
Definition truthy (v : Value) : bool :=
  match v with
  | VUndefined | VNull => false
  | VBool b => b
  | VNumber n => negb (PrimFloat.eqb n 0%float) && PrimFloat.eqb n n
  | VString s => negb (String.eqb s "")
  | VArray _ | VObject _ => true
  end.

(** [a || b] on values already evaluated ([b] has no effect where it is
    used this way). *)
Definition or_else (a b : Value) : Value :=
  if truthy a then a else b.

Fixpoint lookup (key : string) (fields : list (string * Value)) : option Value :=
  match fields with
  | [] => None
  | (k, v) :: rest => if String.eqb k key then Some v else lookup key rest
  end.

(** [v.key] (also the read a destructuring does) for the property names the
    handlers read: [customerId], [success], [email], [name], [amount],
    [response], [status], [data], [detail], [message], [id], [_links],
    [checkout], [href].  None of them is defined on the prototypes of
    strings, numbers, booleans or arrays. *)
Definition Get (rt : Runtime) (v : Value) (key : string) : Result Value :=
  match v with
  | VUndefined | VNull => Throw (engine_error rt (ReadOfNullish v key))
  | VObject fields =>
      match lookup key fields with
      | Some x => Ok x
      | None => Ok VUndefined
      end
  | _ => Ok VUndefined
  end.

(** [v?.key] *)
Definition GetOpt (v : Value) (key : string) : Value :=
  match v with
  | VObject fields =>
      match lookup key fields with
      | Some x => x
      | None => VUndefined
      end
  | _ => VUndefined
  end.

(** ["a,b,c"] from the pieces of [Array.prototype.join]. *)
Fixpoint join_comma (pieces : list string) : string :=
  match pieces with
  | [] => ""
  | [p] => p
  | p :: rest => p ++ "," ++ join_comma rest
  end.

(** ToString, as a template literal applies it.  An object parsed from JSON
    inherits [Object.prototype.toString] unless it has a key [toString] of
    its own, which is never callable. *)
Fixpoint ToString (rt : Runtime) (v : Value) : Result string :=
  match v with
  | VUndefined => Ok "undefined"
  | VNull => Ok "null"
  | VBool true => Ok "true"
  | VBool false => Ok "false"
  | VNumber n => Ok (Number_toString rt n)
  | VString s => Ok s
  | VArray items =>
      let fix pieces (l : list Value) : Result (list string) :=
        match l with
        | [] => Ok []
        | x :: rest =>
            match (if is_nullish x then Ok "" else ToString rt x) with
            | Throw e => Throw e
            | Ok s =>
                match pieces rest with
                | Throw e => Throw e
                | Ok ss => Ok (s :: ss)
                end
            end
        end in
      match pieces items with
      | Throw e => Throw e
      | Ok ss => Ok (join_comma ss)
      end
  | VObject fields =>
      match lookup "toString" fields with
      | Some _ => Throw (engine_error rt (NotPrimitive v))
      | None => Ok "[object Object]"
      end
  end.

(** The text before the first occurrence of the character [sep]:
    [s.split(sep)[0]]. *)
Fixpoint split_first (sep : ascii) (s : string) : string :=
  match s with
  | EmptyString => EmptyString
  | String c rest =>
      if Ascii.eqb c sep then EmptyString else String c (split_first sep rest)
  end.

(** [v.split(sep)[0]] on any value: only a string has a [split] method. *)
Definition call_split_first (rt : Runtime) (v : Value) (sep : ascii) : Result Value :=
  match v with
  | VString s => Ok (VString (split_first sep s))
  | VUndefined | VNull => Throw (engine_error rt (ReadOfNullish v "split"))
  | _ => Throw (engine_error rt (NotAFunction v "split"))
  end.

Definition of_option (o : option string) : Value :=
  match o with
  | Some s => VString s
  | None => VUndefined
  end.

(** An object made by [{}] and assignments [o[key] = v]: its own properties
    in insertion order, and its prototype once an assignment to [__proto__]
    has replaced [Object.prototype] ([None] stands for [Object.prototype]). *)
Record PlainObject : Type := {
  own : list (string * Value);
  prototype : option Value
}.

Definition empty_object : PlainObject := {| own := []; prototype := None |}.

Fixpoint overwrite (key : string) (v : Value) (fields : list (string * Value))
  : list (string * Value) :=
  match fields with
  | [] => []
  | (k, x) :: rest =>
      if String.eqb k key then (k, v) :: rest else (k, x) :: overwrite key v rest
  end.

(** Whether the search for [__proto__] along the prototype chain ends at the
    accessor of [Object.prototype]: not when the chain ends in [null], and
    not when an object parsed from JSON on the chain has a key [__proto__]
    of its own. *)
Definition reaches_proto_setter (proto : option Value) : bool :=
  match proto with
  | None => true
  | Some (VObject fields) =>
      match lookup "__proto__" fields with
      | Some _ => false
      | None => true
      end
  | Some (VArray _) => true
  | Some _ => false
  end.

(** [o[key] = v].  An own property is overwritten in place.  Otherwise the
    key [__proto__] runs the setter of [Object.prototype], which replaces
    the prototype when [v] is an object or [null] and does nothing for any
    other value; every other key (all that the chain holds for it are
    writable data properties) becomes a new own property. *)
Definition assign (o : PlainObject) (key : string) (v : Value) : PlainObject :=
  match lookup key (own o) with
  | Some _ => {| own := overwrite key v (own o); prototype := prototype o |}
  | None =>
      if String.eqb key "__proto__" && reaches_proto_setter (prototype o) then
        match v with
        | VObject _ | VArray _ | VNull => {| own := own o; prototype := Some v |}
        | _ => o
        end
      else {| own := own o ++ [(key, v)]; prototype := prototype o |}
  end.

(** The double quote, and a string literal of JSON text.  Quotes,
    backslashes and control characters are escaped the way
    [JSON.stringify] does. *)
Definition dquote : string := String "034"%char EmptyString.

Definition hex_digit (n : nat) : ascii :=
  if Nat.ltb n 10 then ascii_of_nat (48 + n) else ascii_of_nat (87 + n).

Fixpoint JSON_escape (s : string) : string :=
  match s with
  | EmptyString => EmptyString
  | String c rest =>
      let n := nat_of_ascii c in
      (if Nat.eqb n 34 then "\" ++ dquote
       else if Nat.eqb n 92 then "\\"
       else if Nat.eqb n 8 then "\b"
       else if Nat.eqb n 9 then "\t"
       else if Nat.eqb n 10 then "\n"
       else if Nat.eqb n 12 then "\f"
       else if Nat.eqb n 13 then "\r"
       else if Nat.ltb n 32 then
         "\u00" ++ String (hex_digit (Nat.div n 16)) (String (hex_digit (Nat.modulo n 16)) "")
       else String c "")
      ++ JSON_escape rest
  end.

Definition JSON_quote (s : string) : string :=
  dquote ++ JSON_escape s ++ dquote.

(** [JSON.stringify({ error: msg })] *)
Definition JSON_stringify_error (msg : string) : string :=
  "{" ++ JSON_quote "error" ++ ":" ++ JSON_quote msg ++ "}".

End JS.

(** ** Dates: the time values of ECMAScript

    A time value is a number of milliseconds since the epoch; every one a
    [Date] can hold is an integer below 2^53, so [Z] is exact.  [None] is the
    invalid date ([NaN]). *)

Module ESDate.

Definition msPerDay : Z := 86400000.
Definition msPerHour : Z := 3600000.
Definition msPerMinute : Z := 60000.
Definition msPerSecond : Z := 1000.
Definition maxTime : Z := 8640000000000000.

Definition Day (t : Z) : Z := t / msPerDay.
Definition TimeWithinDay (t : Z) : Z := t mod msPerDay.

Definition DaysInYear (y : Z) : Z :=
  if negb (y mod 4 =? 0) then 365
  else if negb (y mod 100 =? 0) then 366
  else if negb (y mod 400 =? 0) then 365
  else 366.

Definition DayFromYear (y : Z) : Z :=
  365 * (y - 1970) + (y - 1969) / 4 - (y - 1901) / 100 + (y - 1601) / 400.

(** The largest year that starts on or before day [d]: the estimate from
    the mean length of a year is off by at most one. *)
Definition YearFromDay (d : Z) : Z :=
  let y := 1970 + (400 * d) / 146097 in
  if d <? DayFromYear y then y - 1
  else if DayFromYear (y + 1) <=? d then y + 1
  else y.

Definition YearFromTime (t : Z) : Z := YearFromDay (Day t).

Definition InLeapYear (t : Z) : Z :=
  if DaysInYear (YearFromTime t) =? 366 then 1 else 0.

Definition DayWithinYear (t : Z) : Z :=
  Day t - DayFromYear (YearFromTime t).

(** The day of the year on which month [m] (0 to 11) starts; [12] gives the
    length of the year. *)
Definition month_start (leap m : Z) : Z :=
  match m with
  | 0 => 0
  | 1 => 31
  | 2 => 59 + leap
  | 3 => 90 + leap
  | 4 => 120 + leap
  | 5 => 151 + leap
  | 6 => 181 + leap
  | 7 => 212 + leap
  | 8 => 243 + leap
  | 9 => 273 + leap
  | 10 => 304 + leap
  | 11 => 334 + leap
  | _ => 365 + leap
  end.

Definition MonthFromTime (t : Z) : Z :=
  let d := DayWithinYear t in
  let leap := InLeapYear t in
  if d <? 31 then 0
  else if d <? 59 + leap then 1
  else if d <? 90 + leap then 2
  else if d <? 120 + leap then 3
  else if d <? 151 + leap then 4
  else if d <? 181 + leap then 5
  else if d <? 212 + leap then 6
  else if d <? 243 + leap then 7
  else if d <? 273 + leap then 8
  else if d <? 304 + leap then 9
  else if d <? 334 + leap then 10
  else 11.

Definition DateFromTime (t : Z) : Z :=
  DayWithinYear t - month_start (InLeapYear t) (MonthFromTime t) + 1.

Definition HourFromTime (t : Z) : Z := (t / msPerHour) mod 24.
Definition MinFromTime (t : Z) : Z := (t / msPerMinute) mod 60.
Definition SecFromTime (t : Z) : Z := (t / msPerSecond) mod 60.
Definition msFromTime (t : Z) : Z := t mod msPerSecond.

(** MakeDay: the day number of the first of the month, plus [date - 1]. *)
Definition MakeDay (year month date : Z) : Z :=
  let ym := year + month / 12 in
  let mn := month mod 12 in
  let leap := if DaysInYear ym =? 366 then 1 else 0 in
  DayFromYear ym + month_start leap mn + date - 1.

Definition MakeDate (day time : Z) : Z := day * msPerDay + time.

Definition TimeClip (t : Z) : option Z :=
  if Z.abs t <=? maxTime then Some t else None.

Section Zone.
Variable rt : JS.Runtime.

Definition LocalTime (t : Z) : Z := t + JS.LocalTZA rt t true.
Definition UTC (t : Z) : Z := t - JS.LocalTZA rt t false.

(** [d.getDate()] *)
Definition getDate (tv : option Z) : option Z :=
  match tv with
  | Some t => Some (DateFromTime (LocalTime t))
  | None => None
  end.

(** [d.setDate(date)]: the new time value of [d]. *)
Definition setDate (tv : option Z) (date : option Z) : option Z :=
  match tv, date with
  | Some t0, Some dt =>
      let t := LocalTime t0 in
      let newDate :=
        MakeDate (MakeDay (YearFromTime t) (MonthFromTime t) dt) (TimeWithinDay t) in
      TimeClip (UTC newDate)
  | _, _ => None
  end.
End Zone.

(** Decimal digits, zero padded to [width]. *)
Definition digit_char (d : Z) : ascii := ascii_of_nat (48 + Z.to_nat (d mod 10)).

Fixpoint digits (width : nat) (n : Z) : string :=
  match width with
  | O => EmptyString
  | S w => digits w (n / 10) ++ String (digit_char n) EmptyString
  end.

(** The year of the ISO format: four digits from 0 to 9999, otherwise a sign
    and six digits. *)
Definition iso_year (y : Z) : string :=
  if (0 <=? y) && (y <=? 9999) then digits 4 y
  else (if y <? 0 then "-" else "+") ++ digits 6 (Z.abs y).

(** The [YYYY-MM-DD] part, of a time value in UTC. *)
Definition iso_date (t : Z) : string :=
  iso_year (YearFromTime t) ++ "-" ++ digits 2 (MonthFromTime t + 1)
    ++ "-" ++ digits 2 (DateFromTime t).

Definition iso_time (t : Z) : string :=
  digits 2 (HourFromTime t) ++ ":" ++ digits 2 (MinFromTime t) ++ ":"
    ++ digits 2 (SecFromTime t) ++ "." ++ digits 3 (msFromTime t) ++ "Z".

(** [d.toISOString()] *)
Definition toISOString (rt : JS.Runtime) (tv : option Z) : JS.Result string :=
  match tv with
  | Some t => Ok (iso_date t ++ "T" ++ iso_time t)
  | None => Throw (JS.engine_error rt JS.InvalidTime)
  end.

End ESDate.

(** ** The collaborators and the effect monad *)

Import JS.

(** [process.env], read when a module is loaded or a function runs. *)
Record Config : Type := {
  MOLLIE_API_KEY : option string;
  RECURRING_PAYMENT_AMOUNT : option string;
  RECURRING_PAYMENT_WEBHOOK : option string;
  WEBHOOK_URL : option string;
  TENANT_ID : option string;
  APPLICATION_ID : option string;
  CLIENT_SECRET : option string;
  DATAVERSE_URL : option string;
  ENTITY_NAME : option string;
  CLIENT_ID_FIELD : option string;
  EMAIL_FIELD : option string
}.

(** The payment provider's typed records, as far as the handlers read them. *)
Record Payment : Type := {
  payment_status : string;
  payment_customerId : option string
}.

Record Subscription : Type := {
  subscription_status : string
}.

Record Amount : Type := {
  currency : string;
  value : Value
}.

(** The argument of [customerSubscriptions.create]. *)
Record SubscriptionParams : Type := {
  params_customerId : Value;
  params_amount : Amount;
  params_times : Z;
  params_interval : string;
  params_startDate : string;
  params_description : string;
  params_webhookUrl : Value
}.

Record HttpResponseInit : Type := {
  status : Value;
  body : Value;
  jsonBody : Value
}.

(** The configuration of the client [axios.create] returns. *)
Record AxiosConfig : Type := {
  baseURL : string;
  headers : list (string * string)
}.

(** What a handler does to the outside, in the order it does it. *)
Inductive Event : Type :=
| ContextLog (args : list Value)
| ContextError (args : list Value)
| RequestJson
| RequestText
| PaymentsGet (id : string)
| SubscriptionsCreate (p : SubscriptionParams)
| UpdateDataverseSubscription (customerId : Value) (active : bool)
| AxiosPost (client : AxiosConfig) (url : string) (data : Value)
| DynamicsCreate (serverUrl collection : string) (data : PlainObject)
| GetToken (scope : string).

(** The calls that reach the payment provider or the record store. *)
Definition is_external_call (ev : Event) : bool :=
  match ev with
  | PaymentsGet _ | SubscriptionsCreate _ | UpdateDataverseSubscription _ _
  | AxiosPost _ _ _ | DynamicsCreate _ _ _ => true
  | _ => false
  end.

Definition is_subscription_creation (ev : Event) : bool :=
  match ev with
  | SubscriptionsCreate _ => true
  | _ => false
  end.

Definition is_record_store_write (ev : Event) : bool :=
  match ev with
  | UpdateDataverseSubscription _ _ | DynamicsCreate _ _ _ => true
  | _ => false
  end.

Section World.

(** The state of everything outside the handler. *)
Context {W : Type}.

(** An awaited call: it returns or throws, and the world moves on. *)
Definition Call (A : Type) : Type := W -> Result A * W.

Record HttpRequest : Type := {
  request_json : Call Value;
  request_text : Call string;
  request_body : Value
}.

(** What the record-store client does during [create]: it ends, returning or
    throwing, or it calls [onTokenRefresh] and goes on with the token or the
    error the callback gives and the world the callback leaves. *)
Inductive Client : Type :=
| Done (result : Result Value) (w : W)
| Refresh (w : W) (next : Result string -> W -> Client).

(** The collaborators.  [DynamicsWebApi_new] is the constructor of the
    record-store client and [DynamicsWebApi_create] its [create];
    [ClientSecretCredential_new] and [credential_getToken] are the
    constructor and the token request of the identity client;
    [updateDataverseSubscription] is the function of
    [services/dataverseService]. *)
Record Env : Type := {
  runtime : Runtime;
  config : Config;
  Date_now : W -> Z;
  createMollieClient : option string -> Result unit;
  payments_get : string -> Call Payment;
  customerSubscriptions_create : SubscriptionParams -> Call Subscription;
  updateDataverseSubscription : Value -> bool -> Call unit;
  axios_post : AxiosConfig -> string -> Value -> Call Value;
  ClientSecretCredential_new : string -> string -> string -> Result unit;
  credential_getToken : string -> string -> string -> string -> Call string;
  DynamicsWebApi_new : string -> Result unit;
  DynamicsWebApi_create : string -> string -> PlainObject -> W -> Client
}.

Record State : Type := {
  world : W;
  trace : list Event
}.

Definition M (A : Type) : Type := State -> Result A * State.

Definition ret {A} (a : A) : M A := fun st => (Ok a, st).

Definition throw {A} (e : Value) : M A := fun st => (Throw e, st).

Definition bind {A B} (m : M A) (k : A -> M B) : M B :=
  fun st =>
    match m st with
    | (Ok a, st') => k a st'
    | (Throw e, st') => (Throw e, st')
    end.

(** [try { m } catch (e) { h e }] *)
Definition try_catch {A} (m : M A) (h : Value -> M A) : M A :=
  fun st =>
    match m st with
    | (Ok a, st') => (Ok a, st')
    | (Throw e, st') => h e st'
    end.

(** A synchronous step that may throw. *)
Definition lift {A} (r : Result A) : M A := fun st => (r, st).

Definition emit (ev : Event) : M unit :=
  fun st => (Ok tt, {| world := world st; trace := trace st ++ [ev] |}).

(** [await] of a collaborator's call, recorded as [ev]. *)
Definition await {A} (ev : Event) (c : Call A) : M A :=
  fun st =>
    let (r, w') := c (world st) in
    (r, {| world := w'; trace := trace st ++ [ev] |}).

(** The client at work: each [Refresh] runs the callback [onTokenRefresh]. *)
Fixpoint interact (onTokenRefresh : M string) (client : Client) (tr : list Event)
  : Result Value * State :=
  match client with
  | Done result w => (result, {| world := w; trace := tr |})
  | Refresh w next =>
      let (token, st) := onTokenRefresh {| world := w; trace := tr |} in
      interact onTokenRefresh (next token (world st)) (trace st)
  end.

(** [new Date()] *)
Definition new_Date (env : Env) : M (option Z) :=
  fun st => (Ok (Some (Date_now env (world st))), st).

Definition context_log (args : list Value) : M unit := emit (ContextLog args).
Definition context_error (args : list Value) : M unit := emit (ContextError args).

(** A handler started in world [w], with nothing done yet. *)
Definition run {A} (m : M A) (w : W) : Result A * State :=
  m {| world := w; trace := [] |}.

End World.

Arguments HttpRequest W : clear implicits.
Arguments Env W : clear implicits.
Arguments State W : clear implicits.
Arguments M W A : clear implicits.
Arguments Call W A : clear implicits.
Arguments Client W : clear implicits.

Declare Scope eff_scope.
Delimit Scope eff_scope with eff.
Notation "x <- m ;; k" := (bind m (fun x => k))
  (at level 100, m at next level, right associativity) : eff_scope.
Notation "m ;; k" := (bind m (fun _ => k))
  (at level 100, right associativity) : eff_scope.

Local Open Scope eff_scope.

(** ** The start date of the subscription

    What both webhook variants do with [startDate = new Date()]:
    [startDate.setDate(startDate.getDate() + 30)] gives the time value
    [start_time], and [startDate.toISOString().split('T')[0]] the text
    [start_date]. *)
Definition start_time (rt : Runtime) (startDate : option Z) : option Z :=
  ESDate.setDate rt startDate
    (option_map (fun d => d + 30) (ESDate.getDate rt startDate)).

Definition start_date (rt : Runtime) (startDate : option Z) : Result string :=
  match ESDate.toISOString rt (start_time rt startDate) with
  | Ok iso => Ok (split_first "T" iso)
  | Throw e => Throw e
  end.

(** ** The catch clause the three handlers share *)

Section ErrorResponse.
Context {W : Type} (env : Env W).
Let rt := runtime env.

(** [catch (error) { context.error(...); status = error.response?.status || 500;
    errorMessage = error.response?.data?.detail || error.message || "Unknown error";
    return { status, jsonBody: { success: false, error: errorMessage } } }] *)
Definition catch_error (error : Value) : M W HttpResponseInit :=
  context_error [VString "Error processing subscription request:"; error] ;;
  response <- lift (Get rt error "response") ;;
  let status := or_else (GetOpt response "status") (VNumber 500) in
  let detail := GetOpt (GetOpt response "data") "detail" in
  errorMessage <-
    (if truthy detail then ret detail
     else
       message <- lift (Get rt error "message") ;;
       ret (or_else message (VString "Unknown error"))) ;;
  ret {| status := status;
         body := VUndefined;
         jsonBody := VObject [("success", VBool false); ("error", errorMessage)] |}.
End ErrorResponse.

(** ** The webhook handler that takes a JSON body (the legacy variant) *)

Module RecurringPaymentJson.
Section Handler.
Context {W : Type} (env : Env W).
Let rt := runtime env.
Let recurringPaymentAmount := RECURRING_PAYMENT_AMOUNT (config env).
Let recurringPaymentWebhook := RECURRING_PAYMENT_WEBHOOK (config env).

Definition initializeRecurringPayment (request : HttpRequest W) : M W HttpResponseInit :=
  try_catch
    (context_log [VString "Creating recurring payment"] ;;
     requestBody <- await RequestJson (request_json request) ;;
     customerId <- lift (Get rt requestBody "customerId") ;;
     success <- lift (Get rt requestBody "success") ;;
     if negb (truthy success) then
       ret {| status := VNumber 400;
              body := VString (JSON_stringify_error "Payment was not successful");
              jsonBody := VUndefined |}
     else
       lift (createMollieClient env (MOLLIE_API_KEY (config env))) ;;
       startDate <- new_Date env ;;
       startDateShort <- lift (start_date rt startDate) ;;
       let params :=
         {| params_customerId := customerId;
            params_amount := {| currency := "EUR"; value := of_option recurringPaymentAmount |};
            params_times := 12;
            params_interval := "1 days";
            params_startDate := startDateShort;
            params_description := "";
            params_webhookUrl := of_option recurringPaymentWebhook |} in
       recurringPaymentResponse <-
         await (SubscriptionsCreate params) (customerSubscriptions_create env params) ;;
       let status := String.eqb (subscription_status recurringPaymentResponse) "active" in
       await (UpdateDataverseSubscription customerId status)
         (updateDataverseSubscription env customerId status) ;;
       ret {| status := VNumber 200;
              body := VUndefined;
              jsonBody := VObject [("success", VBool true)] |})
    (catch_error env).
End Handler.
End RecurringPaymentJson.

(** ** The webhook handler that takes a form body (the canonical variant) *)

Module RecurringPaymentForm.
Section Handler.
Context {W : Type} (env : Env W).
Let rt := runtime env.
Let recurringPaymentAmount := RECURRING_PAYMENT_AMOUNT (config env).
Let recurringPaymentWebhook := RECURRING_PAYMENT_WEBHOOK (config env).

(** [URLSearchParams.get] returns a string or [null]; [!paymentId] holds of
    [null] and of the empty string. *)
Definition initializeRecurringPayment (request : HttpRequest W) : M W HttpResponseInit :=
  try_catch
    (context_log [VString "Creating recurring payment"] ;;
     bodyText <- await RequestText (request_text request) ;;
     context_log [VString "Webhook payload:"; VString bodyText] ;;
     match URLSearchParams_get rt bodyText "id" with
     | None | Some EmptyString =>
         context_log [VString "No payment ID found in webhook"] ;;
         ret {| status := VNumber 400;
                body := VString (JSON_stringify_error "Missing payment ID");
                jsonBody := VUndefined |}
     | Some paymentId =>
         context_log [VString ("Received webhook for payment: " ++ paymentId)] ;;
         lift (createMollieClient env (MOLLIE_API_KEY (config env))) ;;
         payment <- await (PaymentsGet paymentId) (payments_get env paymentId) ;;
         if negb (String.eqb (payment_status payment) "paid") then
           context_log
             [VString ("Payment not successful, status: " ++ payment_status payment)] ;;
           ret {| status := VNumber 200;
                  body := VUndefined;
                  jsonBody := VObject [("received", VBool true)] |}
         else
           let customerId := of_option (payment_customerId payment) in
           startDate <- new_Date env ;;
           startDateShort <- lift (start_date rt startDate) ;;
           let params :=
             {| params_customerId := customerId;
                params_amount :=
                  {| currency := "EUR"; value := of_option recurringPaymentAmount |};
                params_times := 12;
                params_interval := "1 days";
                params_startDate := startDateShort;
                params_description := "Recurring payment";
                params_webhookUrl := of_option recurringPaymentWebhook |} in
           recurringPaymentResponse <-
             await (SubscriptionsCreate params) (customerSubscriptions_create env params) ;;
           let status :=
             String.eqb (subscription_status recurringPaymentResponse) "active" in
           await (UpdateDataverseSubscription customerId status)
             (updateDataverseSubscription env customerId status) ;;
           ret {| status := VNumber 200;
                  body := VUndefined;
                  jsonBody := VObject [("success", VBool true)] |}
     end)
    (catch_error env).
End Handler.
End RecurringPaymentForm.

(** ** Initial subscription: customer, record store, first payment *)

Module SubscriptionCreator.
Section Handler.
Context {W : Type} (env : Env W).
Let rt := runtime env.
Let cfg := config env.

Definition MOLLIE_API_URL : string := "https://api.mollie.com/v2".

(** [!process.env.X] *)
Definition unset (o : option string) : bool := negb (truthy (of_option o)).

(** [process.env.X || fallback] *)
Definition env_or (o : option string) (fallback : string) : string :=
  match o with
  | Some s => if String.eqb s "" then fallback else s
  | None => fallback
  end.

(** [record = {}; record[clientIdField] = customerId; record[emailField] = email] *)
Definition make_record (clientIdField emailField : string) (customerId email : Value)
  : PlainObject :=
  assign (assign empty_object clientIdField customerId) emailField email.

(** The callback the record-store client gets as [onTokenRefresh]. *)
Definition acquireToken (tenantId appId clientSecret dataverseUrl : string) : M W string :=
  try_catch
    (lift (ClientSecretCredential_new env tenantId appId clientSecret) ;;
     token <-
       await (GetToken (dataverseUrl ++ "/.default"))
         (credential_getToken env tenantId appId clientSecret
            (dataverseUrl ++ "/.default")) ;;
     ret token)
    (fun error =>
       context_error [VString "Error acquiring token:"; error] ;;
       throw error).

(** [await dynamicsWebApi.create({ collection, data })] *)
Definition create (onTokenRefresh : M W string) (serverUrl collection : string)
    (data : PlainObject) : M W Value :=
  fun st =>
    interact onTokenRefresh (DynamicsWebApi_create env serverUrl collection data (world st))
      (trace st ++ [DynamicsCreate serverUrl collection data]).

Definition writeCustomerToDataverse (customerId email : Value) : M W Value :=
  let tenantId := TENANT_ID cfg in
  let appId := APPLICATION_ID cfg in
  let clientSecret := CLIENT_SECRET cfg in
  let dataverseUrl := DATAVERSE_URL cfg in
  let entityName := env_or (ENTITY_NAME cfg) "contacts" in
  let clientIdField := env_or (CLIENT_ID_FIELD cfg) "mollie_customer_id" in
  let emailField := env_or (EMAIL_FIELD cfg) "emailaddress1" in
  if unset tenantId || unset appId || unset clientSecret || unset dataverseUrl then
    throw (new_Error "Missing required environment variables for Dataverse connection")
  else
    let dataverseUrl := env_or dataverseUrl "" in
    let dataverseUrl :=
      if negb (String.prefix "https://" dataverseUrl) then "https://" ++ dataverseUrl
      else dataverseUrl in
    (if URL_valid rt dataverseUrl then ret tt
     else
       context_error [VString ("Invalid Dataverse URL format: " ++ dataverseUrl)] ;;
       throw (new_Error ("Invalid Dataverse URL: " ++ dataverseUrl
                ++ ". Please provide a valid URL like " ++ dquote
                ++ "https://yourorg.crm.dynamics.com" ++ dquote))) ;;
    let acquireToken :=
      acquireToken (env_or tenantId "") (env_or appId "") (env_or clientSecret "")
        dataverseUrl in
    lift (DynamicsWebApi_new env dataverseUrl) ;;
    try_catch
      (let record := make_record clientIdField emailField customerId email in
       createResult <- create acquireToken dataverseUrl entityName record ;;
       shown <- lift (ToString rt createResult) ;;
       context_log
         [VString ("Successfully created record in Dataverse with ID: " ++ shown)] ;;
       ret createResult)
      (fun error =>
         context_error [VString "Error creating record in Dataverse:"; error] ;;
         throw error).

(** The client of [axios.create]. *)
Definition mollieClient : AxiosConfig :=
  {| baseURL := MOLLIE_API_URL;
     headers :=
       [("Authorization",
         "Bearer " ++ match MOLLIE_API_KEY cfg with Some k => k | None => "undefined" end);
        ("Content-Type", "application/json")] |}.

Definition post (url : string) (data : Value) : M W Value :=
  await (AxiosPost mollieClient url data) (axios_post env mollieClient url data).

(** The body of the first payment. *)
Definition first_payment (amount customerId : Value) : Value :=
  VObject
    [("amount", VObject [("currency", VString "EUR");
                         ("value", or_else amount (VString "0.01"))]);
     ("webhookUrl", of_option (WEBHOOK_URL cfg));
     ("customerId", customerId);
     ("sequenceType", VString "first")].

Definition initializeSubscription (request : HttpRequest W) : M W HttpResponseInit :=
  context_log [VString "Processing subscription initialization request"] ;;
  try_catch
    (requestBody <- await RequestJson (request_json request) ;;
     email <- lift (Get rt requestBody "email") ;;
     name <- lift (Get rt requestBody "name") ;;
     amount <- lift (Get rt requestBody "amount") ;;
     if negb (truthy email) then
       ret {| status := VNumber 400;
              body := VString (JSON_stringify_error "Email address is required");
              jsonBody := VUndefined |}
     else
       shown <- lift (ToString rt email) ;;
       context_log [VString ("Creating customer for email: " ++ shown)] ;;
       name <- (if truthy name then ret name else lift (call_split_first rt email "@")) ;;
       customerData <- post "/customers" (VObject [("email", email); ("name", name)]) ;;
       customerId <- lift (Get rt customerData "id") ;;
       shown <- lift (ToString rt customerId) ;;
       context_log [VString ("Customer created with ID: " ++ shown)] ;;
       try_catch
         (writeCustomerToDataverse customerId email ;;
          shown <- lift (ToString rt customerId) ;;
          context_log
            [VString ("Successfully wrote customer data to Dataverse: " ++ shown)])
         (fun dataverseError =>
            context_error [VString "Error writing to Dataverse:"; dataverseError]) ;;
       context_log [VString "Creating initial payment"] ;;
       paymentData <- post "/payments" (first_payment amount customerId) ;;
       paymentId <- lift (Get rt paymentData "id") ;;
       links <- lift (Get rt paymentData "_links") ;;
       checkout <- lift (Get rt links "checkout") ;;
       href <- lift (Get rt checkout "href") ;;
       ret {| status := VNumber 200;
              body := VUndefined;
              jsonBody :=
                VObject [("success", VBool true);
                         ("customerId", customerId);
                         ("paymentId", paymentId);
                         ("checkoutUrl", href)] |})
    (catch_error env).
End Handler.
End SubscriptionCreator.

(** ** The validator test endpoint *)

Module ValidatorTest.
Section Handler.
Context {W : Type}.

Definition subscriptionValidatorTest (req : HttpRequest W) : M W HttpResponseInit :=
  context_log [request_body req] ;;
  ret {| status := VUndefined; body := VBool true; jsonBody := VUndefined |}.
End Handler.
End ValidatorTest.

(** ** Vocabulary of the specification *)

Section Observations.
Context {W : Type}.

(** The response a handler returns, or the value its promise rejects with. *)
Definition outcome {A} (m : M W A) (w : W) : Result A := fst (run m w).

(** Everything the handler did, in order. *)
Definition calls {A} (m : M W A) (w : W) : list Event := trace (snd (run m w)).

(** A computation that only appends to the trace, the same events whatever
    the trace was. *)
Definition framed {A} (m : M W A) : Prop :=
  forall w tr,
    m {| world := w; trace := tr |}
    = (fst (run m w),
       {| world := world (snd (run m w)); trace := tr ++ trace (snd (run m w)) |}).

(** A computation that calls neither the payment provider nor the record
    store. *)
Definition quiet {A} (m : M W A) : Prop :=
  forall w, filter is_external_call (trace (snd (run m w))) = [].
End Observations.

(** A field of an error is present when it holds a truthy value: a status
    other than zero, a message other than the empty string.  This is what
    the [||] of the catch clause tests. *)
Definition present (v : Value) : option Value :=
  if truthy v then Some v else None.

(** The HTTP status the failing call reported: [error.response.status]. *)
Definition reported_status (error : Value) : option Value :=
  present (GetOpt (GetOpt error "response") "status").

(** The detail of the upstream response: [error.response.data.detail]. *)
Definition upstream_detail (error : Value) : option Value :=
  present (GetOpt (GetOpt (GetOpt error "response") "data") "detail").

(** The message of the exception: [error.message]. *)
Definition exception_message (error : Value) : option Value :=
  present (GetOpt error "message").

(** The status of a failure response: the reported status when present, and
    500 otherwise. *)
Definition failure_status (error : Value) : Value :=
  match reported_status error with
  | Some s => s
  | None => VNumber 500
  end.

(** The message of a failure response: the upstream detail if present, else
    the exception's message, else a fallback. *)
Definition failure_message (error : Value) : Value :=
  match upstream_detail error with
  | Some d => d
  | None =>
      match exception_message error with
      | Some m => m
      | None => VString "Unknown error"
      end
  end.

Definition failure_response (error : Value) : HttpResponseInit :=
  {| status := failure_status error;
     body := VUndefined;
     jsonBody := VObject [("success", VBool false); ("error", failure_message error)] |}.

(** The responses of the webhook handlers. *)
Definition success_response : HttpResponseInit :=
  {| status := VNumber 200;
     body := VUndefined;
     jsonBody := VObject [("success", VBool true)] |}.

Definition received_response : HttpResponseInit :=
  {| status := VNumber 200;
     body := VUndefined;
     jsonBody := VObject [("received", VBool true)] |}.

Definition bad_request (message : string) : HttpResponseInit :=
  {| status := VNumber 400;
     body := VString (JSON_stringify_error message);
     jsonBody := VUndefined |}.

(** What the catch clause logs. *)
Definition logged_error (e : Value) : Event :=
  ContextError [VString "Error processing subscription request:"; e].

(** What the canonical webhook has done once the payment is fetched. *)
Definition webhook_prefix (bodyText paymentId : string) : list Event :=
  [ContextLog [VString "Creating recurring payment"];
   RequestText;
   ContextLog [VString "Webhook payload:"; VString bodyText];
   ContextLog [VString ("Received webhook for payment: " ++ paymentId)];
   PaymentsGet paymentId].

(** The character [sep] does not occur in [s]. *)
Definition lacks (sep : ascii) (s : string) : Prop := split_first sep s = s.

(** The host's zone keeps one offset from UTC (no daylight saving change). *)
Definition constant_offset (rt : Runtime) : Prop :=
  exists offset, forall t isUTC, LocalTZA rt t isUTC = offset.

(** The subscription the canonical webhook asks for. *)
Definition webhook_subscription (cfg : Config) (customerId : Value) (startDate : string)
  : SubscriptionParams :=
  {| params_customerId := customerId;
     params_amount := {| currency := "EUR"; value := of_option (RECURRING_PAYMENT_AMOUNT cfg) |};
     params_times := 12;
     params_interval := "1 days";
     params_startDate := startDate;
     params_description := "Recurring payment";
     params_webhookUrl := of_option (RECURRING_PAYMENT_WEBHOOK cfg) |}.

(** The activation flags in a trace, in order. *)
Fixpoint activation_flags (tr : list Event) : list bool :=
  match tr with
  | [] => []
  | UpdateDataverseSubscription _ active :: rest => active :: activation_flags rest
  | _ :: rest => activation_flags rest
  end.

(** The bodies posted to [/payments], in order. *)
Fixpoint payment_posts (tr : list Event) : list Value :=
  match tr with
  | [] => []
  | AxiosPost _ url data :: rest =>
      if String.eqb url "/payments" then data :: payment_posts rest
      else payment_posts rest
  | _ :: rest => payment_posts rest
  end.

Section Scenarios.
Context {W : Type} (env : Env W) (request : HttpRequest W).
Let rt := runtime env.
Let cfg := config env.

(** The form body of the request read in world [w0] carries a payment id,
    and the provider resolves it to [payment], leaving the world in [w2]. *)
Definition resolves_to (w0 : W) (payment : Payment) (w2 : W) : Prop :=
  exists bodyText paymentId w1,
    request_text request w0 = (Ok bodyText, w1)
    /\ URLSearchParams_get rt bodyText "id" = Some paymentId
    /\ paymentId <> ""
    /\ createMollieClient env (MOLLIE_API_KEY cfg) = Ok tt
    /\ payments_get env paymentId w1 = (Ok payment, w2).

(** The activation reaches the subscription-creation step: the payment is
    paid and the start date [startDate] has been computed. *)
Definition reaches_creation (w0 : W) (payment : Payment) (startDate : string) (w2 : W)
  : Prop :=
  resolves_to w0 payment w2
  /\ payment_status payment = "paid"
  /\ start_date rt (Some (Date_now env w2)) = Ok startDate.

(** The subscription has been created as [subscription], in world [w3]. *)
Definition creates (w0 : W) (payment : Payment) (subscription : Subscription) (w3 : W)
  : Prop :=
  exists startDate w2,
    reaches_creation w0 payment startDate w2
    /\ customerSubscriptions_create env
         (webhook_subscription cfg (of_option (payment_customerId payment)) startDate) w2
       = (Ok subscription, w3).

(** A step of the activation throws [e]. *)
Inductive fails_with (w0 : W) (e : Value) : Prop :=
| fails_body_parsing w1 :
    request_text request w0 = (Throw e, w1) ->
    fails_with w0 e
| fails_client bodyText paymentId w1 :
    request_text request w0 = (Ok bodyText, w1) ->
    URLSearchParams_get rt bodyText "id" = Some paymentId ->
    paymentId <> "" ->
    createMollieClient env (MOLLIE_API_KEY cfg) = Throw e ->
    fails_with w0 e
| fails_payment_lookup bodyText paymentId w1 w2 :
    request_text request w0 = (Ok bodyText, w1) ->
    URLSearchParams_get rt bodyText "id" = Some paymentId ->
    paymentId <> "" ->
    createMollieClient env (MOLLIE_API_KEY cfg) = Ok tt ->
    payments_get env paymentId w1 = (Throw e, w2) ->
    fails_with w0 e
| fails_start_date payment w2 :
    resolves_to w0 payment w2 ->
    payment_status payment = "paid" ->
    start_date rt (Some (Date_now env w2)) = Throw e ->
    fails_with w0 e
| fails_subscription_creation payment startDate w2 w3 :
    reaches_creation w0 payment startDate w2 ->
    customerSubscriptions_create env
      (webhook_subscription cfg (of_option (payment_customerId payment)) startDate) w2
    = (Throw e, w3) ->
    fails_with w0 e
| fails_record_store_write payment subscription w3 w4 :
    creates w0 payment subscription w3 ->
    updateDataverseSubscription env (of_option (payment_customerId payment))
      (String.eqb (subscription_status subscription) "active") w3
    = (Throw e, w4) ->
    fails_with w0 e.
End Scenarios.

Section CreatorScenarios.
Context {W : Type} (env : Env W) (request : HttpRequest W).
Let rt := runtime env.

(** The body of the customer creation: the name defaults to the part of
    the email address before the at sign. *)
Definition customer_request (requestBody : Value) (email : string) : Value :=
  VObject
    [("email", VString email);
     ("name",
      if truthy (GetOpt requestBody "name") then GetOpt requestBody "name"
      else VString (split_first "@" email))].

(** The request carries a valid email address and the provider has created
    the customer [customerId], leaving the world in [w2]. *)
Definition customer_created (w0 : W) (requestBody : Value) (email customerId : string)
    (w2 : W) : Prop :=
  exists w1 customerData,
    request_json request w0 = (Ok requestBody, w1)
    /\ GetOpt requestBody "email" = VString email
    /\ email <> ""
    /\ axios_post env (SubscriptionCreator.mollieClient env) "/customers"
         (customer_request requestBody email) w1
       = (Ok customerData, w2)
    /\ GetOpt customerData "id" = VString customerId.

(** The provider's answer to the first payment carries the payment id and
    the checkout link. *)
Definition checkout_link (paymentData paymentId href : Value) : Prop :=
  exists links checkout,
    Get rt paymentData "id" = Ok paymentId
    /\ Get rt paymentData "_links" = Ok links
    /\ Get rt links "checkout" = Ok checkout
    /\ Get rt checkout "href" = Ok href.
End CreatorScenarios.

(** ** A sample deployment

    The world is the clock, in milliseconds; the host runs in UTC; the
    collaborators answer with fixed results. *)

Module Sample.

Fixpoint after_first (sep : ascii) (s : string) : string :=
  match s with
  | EmptyString => EmptyString
  | String c rest => if Ascii.eqb c sep then rest else after_first sep rest
  end.

(** The pieces between the occurrences of [sep]. *)
Fixpoint pieces (sep : ascii) (acc s : string) : list string :=
  match s with
  | EmptyString => [acc]
  | String c rest =>
      if Ascii.eqb c sep then acc :: pieces sep EmptyString rest
      else pieces sep (acc ++ String c EmptyString) rest
  end.

(** [URLSearchParams.get], for bodies without percent escapes or plus signs. *)
Definition form_get (bodyText name : string) : option string :=
  match
    find (fun item => negb (String.eqb item "") && String.eqb (split_first "=" item) name)
      (pieces "&" EmptyString bodyText)
  with
  | Some item => Some (after_first "=" item)
  | None => None
  end.

Definition host : Runtime :=
  {| engine_message := fun e =>
       match e with
       | ReadOfNullish _ key => "Cannot read properties (reading '" ++ key ++ "')"
       | NotAFunction _ key => key ++ " is not a function"
       | NotPrimitive _ => "Cannot convert object to primitive value"
       | InvalidTime => "Invalid time value"
       end;
     Number_toString := fun _ => "0";
     LocalTZA := fun _ _ => 0;
     URL_valid := fun _ => true;
     URLSearchParams_get := form_get |}.

(** The record store is not configured. *)
Definition settings : Config :=
  {| MOLLIE_API_KEY := Some "test_key";
     RECURRING_PAYMENT_AMOUNT := Some "25.00";
     RECURRING_PAYMENT_WEBHOOK := Some "https://example.org/hook";
     WEBHOOK_URL := Some "https://example.org/first";
     TENANT_ID := None;
     APPLICATION_ID := None;
     CLIENT_SECRET := None;
     DATAVERSE_URL := None;
     ENTITY_NAME := None;
     CLIENT_ID_FIELD := None;
     EMAIL_FIELD := None |}.

Definition customer : Value := VObject [("id", VString "cst_1")].

Definition first_payment_data : Value :=
  VObject [("id", VString "tr_1");
           ("_links",
            VObject [("checkout",
                      VObject [("href", VString "https://pay.example.org/tr_1")])])].

Definition env (payment : Result Payment) (subscription : Result Subscription)
    (written : Result unit) : Env Z :=
  {| runtime := host;
     config := settings;
     Date_now := fun w => w;
     createMollieClient := fun _ => Ok tt;
     payments_get := fun _ w => (payment, w);
     customerSubscriptions_create := fun _ w => (subscription, w);
     updateDataverseSubscription := fun _ _ w => (written, w);
     axios_post := fun _ url _ w =>
       (if String.eqb url "/customers" then Ok customer else Ok first_payment_data, w);
     ClientSecretCredential_new := fun _ _ _ => Ok tt;
     credential_getToken := fun _ _ _ _ w => (Ok "token_1", w);
     DynamicsWebApi_new := fun _ => Ok tt;
     DynamicsWebApi_create := fun _ _ _ w => Done (Ok (VString "record_1")) w |}.

Definition request (json : Result Value) (text : Result string) : HttpRequest Z :=
  {| request_json := fun w => (json, w);
     request_text := fun w => (text, w);
     request_body := VNull |}.

Definition paid : Payment :=
  {| payment_status := "paid"; payment_customerId := Some "cst_1" |}.

Definition open : Payment :=
  {| payment_status := "open"; payment_customerId := Some "cst_1" |}.

Definition pending : Subscription := {| subscription_status := "pending" |}.
Definition active : Subscription := {| subscription_status := "active" |}.

(** 2025-03-01T00:30:00.000Z *)
Definition clock : Z := 1740789000000.

(** An error of an HTTP client: [{ message, response: { status, data: { detail } } }]. *)
Definition http_error (code : float) (detail : string) : Value :=
  VObject [("message", VString "Request failed");
           ("response",
            VObject [("status", VNumber code);
                     ("data", VObject [("detail", VString detail)])])].

End Sample.

(** ** Vocabulary of the further properties *)

(** The subscription the legacy webhook asks for: the customer id is the
    caller's, the description is empty. *)
Definition legacy_subscription (cfg : Config) (customerId : Value) (startDate : string)
  : SubscriptionParams :=
  {| params_customerId := customerId;
     params_amount := {| currency := "EUR"; value := of_option (RECURRING_PAYMENT_AMOUNT cfg) |};
     params_times := 12;
     params_interval := "1 days";
     params_startDate := startDate;
     params_description := "";
     params_webhookUrl := of_option (RECURRING_PAYMENT_WEBHOOK cfg) |}.

(** The record store is configured: the four required variables are set. *)
Definition store_configured (cfg : Config) : Prop :=
  SubscriptionCreator.unset (TENANT_ID cfg) = false
  /\ SubscriptionCreator.unset (APPLICATION_ID cfg) = false
  /\ SubscriptionCreator.unset (CLIENT_SECRET cfg) = false
  /\ SubscriptionCreator.unset (DATAVERSE_URL cfg) = false.

(** The server URL the write uses: the configured one, with the scheme added
    when it is missing. *)
Definition store_url (cfg : Config) : string :=
  let url := SubscriptionCreator.env_or (DATAVERSE_URL cfg) "" in
  if String.prefix "https://" url then url else "https://" ++ url.

Definition store_collection (cfg : Config) : string :=
  SubscriptionCreator.env_or (ENTITY_NAME cfg) "contacts".

Definition store_id_field (cfg : Config) : string :=
  SubscriptionCreator.env_or (CLIENT_ID_FIELD cfg) "mollie_customer_id".

Definition store_email_field (cfg : Config) : string :=
  SubscriptionCreator.env_or (EMAIL_FIELD cfg) "emailaddress1".

Definition store_record (cfg : Config) (customerId email : Value) : PlainObject :=
  SubscriptionCreator.make_record (store_id_field cfg) (store_email_field cfg)
    customerId email.

(** The callback the write hands to the record-store client. *)
Definition store_callback {W : Type} (env : Env W) : M W string :=
  SubscriptionCreator.acquireToken env
    (SubscriptionCreator.env_or (TENANT_ID (config env)) "")
    (SubscriptionCreator.env_or (APPLICATION_ID (config env)) "")
    (SubscriptionCreator.env_or (CLIENT_SECRET (config env)) "")
    (store_url (config env)).

(** The create call of the write, with the token requests the client makes
    through the callback. *)
Definition store_create {W : Type} (env : Env W) (customerId email : Value) : M W Value :=
  SubscriptionCreator.create env (store_callback env) (store_url (config env))
    (store_collection (config env)) (store_record (config env) customerId email).

(** The records sent to the record store in a trace. *)
Fixpoint store_records (tr : list Event) : list PlainObject :=
  match tr with
  | [] => []
  | DynamicsCreate _ _ data :: rest => data :: store_records rest
  | _ :: rest => store_records rest
  end.

(** The server URLs of the record-store writes in a trace. *)
Fixpoint store_urls (tr : list Event) : list string :=
  match tr with
  | [] => []
  | DynamicsCreate url _ _ :: rest => url :: store_urls rest
  | _ :: rest => store_urls rest
  end.

(** The sample deployment on a host in a zone with daylight saving time:
    one hour ahead of UTC until 2025-03-30T01:00:00Z, two hours from then
    on. *)
Module Amsterdam.

Definition host : Runtime :=
  {| engine_message := engine_message Sample.host;
     Number_toString := Number_toString Sample.host;
     LocalTZA := fun t isUTC =>
       if t <? (if isUTC then 1743296400000 else 1743300000000) then 3600000
       else 7200000;
     URL_valid := URL_valid Sample.host;
     URLSearchParams_get := URLSearchParams_get Sample.host |}.

Definition env : Env Z :=
  {| runtime := host;
     config := Sample.settings;
     Date_now := fun w => w;
     createMollieClient := fun _ => Ok tt;
     payments_get := fun _ w => (Ok Sample.paid, w);
     customerSubscriptions_create := fun _ w => (Ok Sample.active, w);
     updateDataverseSubscription := fun _ _ w => (Ok tt, w);
     axios_post := fun _ _ _ w => (Ok Sample.customer, w);
     ClientSecretCredential_new := fun _ _ _ => Ok tt;
     credential_getToken := fun _ _ _ _ w => (Ok "token_1", w);
     DynamicsWebApi_new := fun _ => Ok tt;
     DynamicsWebApi_create := fun _ _ _ w => Done (Ok (VString "record_1")) w |}.

(** 2025-03-15T00:30:00.000Z *)
Definition clock : Z := 1741998600000.

End Amsterdam.

(** A deployment with the record store configured; the server URL lacks its
    scheme.  [valid] is the verdict of the URL constructor, [posted] the
    provider's answer by path, [created] the record store's answer. *)
Module Shop.

Definition settings : Config :=
  {| MOLLIE_API_KEY := Some "test_key";
     RECURRING_PAYMENT_AMOUNT := Some "25.00";
     RECURRING_PAYMENT_WEBHOOK := Some "https://example.org/hook";
     WEBHOOK_URL := Some "https://example.org/first";
     TENANT_ID := Some "tenant";
     APPLICATION_ID := Some "application";
     CLIENT_SECRET := Some "secret";
     DATAVERSE_URL := Some "org.crm4.dynamics.com";
     ENTITY_NAME := None;
     CLIENT_ID_FIELD := None;
     EMAIL_FIELD := None |}.

Definition host (valid : bool) : Runtime :=
  {| engine_message := engine_message Sample.host;
     Number_toString := Number_toString Sample.host;
     LocalTZA := LocalTZA Sample.host;
     URL_valid := fun _ => valid;
     URLSearchParams_get := URLSearchParams_get Sample.host |}.

Definition env (valid : bool) (posted : string -> Result Value) (created : Result Value)
  : Env Z :=
  {| runtime := host valid;
     config := settings;
     Date_now := fun w => w;
     createMollieClient := fun _ => Ok tt;
     payments_get := fun _ w => (Ok Sample.paid, w);
     customerSubscriptions_create := fun _ w => (Ok Sample.active, w);
     updateDataverseSubscription := fun _ _ w => (Ok tt, w);
     axios_post := fun _ url _ w => (posted url, w);
     ClientSecretCredential_new := fun _ _ _ => Ok tt;
     credential_getToken := fun _ _ _ _ w => (Ok "token_1", w);
     DynamicsWebApi_new := fun _ => Ok tt;
     DynamicsWebApi_create := fun _ _ _ w =>
       Refresh w
         (fun token w' =>
            match token with
            | Ok _ => Done created w'
            | Throw e => Done (Throw e) w'
            end) |}.

(** The same deployment with the token request answering [token] and the
    constructor of the record-store client answering [built]. *)
Definition offline (token : Result string) (built : Result unit) : Env Z :=
  {| runtime := host true;
     config := settings;
     Date_now := fun w => w;
     createMollieClient := fun _ => Ok tt;
     payments_get := fun _ w => (Ok Sample.paid, w);
     customerSubscriptions_create := fun _ w => (Ok Sample.active, w);
     updateDataverseSubscription := fun _ _ w => (Ok tt, w);
     axios_post := fun _ _ _ w => (Ok Sample.customer, w);
     ClientSecretCredential_new := fun _ _ _ => Ok tt;
     credential_getToken := fun _ _ _ _ w => (token, w);
     DynamicsWebApi_new := fun _ => built;
     DynamicsWebApi_create := fun _ _ _ w =>
       Refresh w
         (fun token w' =>
            match token with
            | Ok _ => Done (Ok (VString "record_1")) w'
            | Throw e => Done (Throw e) w'
            end) |}.

(** The provider accepts the customer and the payment. *)
Definition accepts (url : string) : Result Value :=
  if String.eqb url "/customers" then Ok Sample.customer else Ok Sample.first_payment_data.

(** The provider accepts the customer and refuses the payment. *)
Definition refuses_payment (url : string) : Result Value :=
  if String.eqb url "/customers" then Ok Sample.customer
  else Throw (Sample.http_error 422 "The amount is invalid").

(** The provider refuses the customer. *)
Definition refuses_customer (url : string) : Result Value :=
  Throw (Sample.http_error 422 "The email address is invalid").

Definition anna : Value := VObject [("email", VString "anna@example.org")].

End Shop.

(** * Properties *)

(** ** The calendar *)

Module ESDateFacts.
Import ESDate.

Ltac zdiv := Z.div_mod_to_equations; lia.

(** [YearFromDay d] is the year that contains day [d]. *)
Lemma YearFromDay_spec d :
  DayFromYear (YearFromDay d) <= d < DayFromYear (YearFromDay d + 1).
Proof.
  unfold YearFromDay.
  set (y := 1970 + 400 * d / 146097).
  assert (Hy : 146097 * (y - 1970) <= 400 * d < 146097 * (y - 1970) + 146097)
    by (unfold y; zdiv).
  clearbody y.
  destruct (Z.ltb_spec d (DayFromYear y)) as [E1 | E1].
  - replace (y - 1 + 1) with y by lia. unfold DayFromYear in *. zdiv.
  - destruct (Z.leb_spec (DayFromYear (y + 1)) d) as [E2 | E2].
    + unfold DayFromYear in *. zdiv.
    + lia.
Qed.

Lemma DaysInYear_spec y : DayFromYear (y + 1) - DayFromYear y = DaysInYear y.
Proof.
  unfold DaysInYear, DayFromYear.
  destruct (Z.eqb_spec (y mod 4) 0); cbn [negb];
    [destruct (Z.eqb_spec (y mod 100) 0); cbn [negb];
     [destruct (Z.eqb_spec (y mod 400) 0); cbn [negb]|]|]; zdiv.
Qed.

Lemma MonthFromTime_range t : 0 <= MonthFromTime t <= 11.
Proof.
  unfold MonthFromTime.
  repeat match goal with
         | |- context [if ?b then _ else _] => destruct b
         end; lia.
Qed.

(** Setting the day of the month to [DateFromTime t + k] moves the day
    number by [k], across the ends of months and years. *)
Lemma MakeDay_shift t k :
  MakeDay (YearFromTime t) (MonthFromTime t) (DateFromTime t + k) = Day t + k.
Proof.
  pose proof (MonthFromTime_range t) as Hm.
  unfold MakeDay.
  rewrite Z.div_small, Z.mod_small by lia.
  unfold DateFromTime, DayWithinYear, InLeapYear.
  rewrite Z.add_0_r. lia.
Qed.

Lemma Day_shift t k : Day (t + k * msPerDay) = Day t + k.
Proof. unfold Day. apply Z.div_add. discriminate. Qed.

Lemma MakeDate_shift t k :
  MakeDate (Day t + k) (TimeWithinDay t) = t + k * msPerDay.
Proof.
  unfold MakeDate, Day, TimeWithinDay.
  pose proof (Z.div_mod t msPerDay ltac:(discriminate)). lia.
Qed.

(** With one offset for the whole zone, [d.setDate(d.getDate() + k)] adds
    [k] days to the time value. *)
Lemma setDate_constant_offset rt t k :
  constant_offset rt ->
  setDate rt (Some t) (option_map (fun d => d + k) (getDate rt (Some t)))
  = TimeClip (t + k * msPerDay).
Proof.
  intros [off Hoff]. cbn [setDate getDate option_map]. unfold LocalTime, UTC.
  rewrite MakeDay_shift, MakeDate_shift, !Hoff.
  f_equal. lia.
Qed.

Lemma split_first_app sep a b :
  lacks sep a -> split_first sep (a ++ String sep b) = a.
Proof.
  unfold lacks. induction a as [|c a IH]; simpl.
  - now rewrite Ascii.eqb_refl.
  - destruct (Ascii.eqb c sep); [discriminate|].
    intros H. injection H as H. now rewrite IH.
Qed.

Lemma lacks_app sep a b : lacks sep a -> lacks sep b -> lacks sep (a ++ b).
Proof.
  unfold lacks. induction a as [|c a IH]; simpl; auto.
  destruct (Ascii.eqb c sep); [discriminate|].
  intros H Hb. injection H as H. now rewrite IH.
Qed.

Lemma digit_char_not_T d : Ascii.eqb (digit_char d) "T" = false.
Proof.
  apply Ascii.eqb_neq. unfold digit_char. intros H.
  apply (f_equal nat_of_ascii) in H.
  pose proof (Z.mod_pos_bound d 10 ltac:(lia)) as Hd.
  rewrite nat_ascii_embedding in H by lia.
  change (nat_of_ascii "T") with 84%nat in H. lia.
Qed.

Lemma lacks_char sep c : Ascii.eqb c sep = false -> lacks sep (String c EmptyString).
Proof. intros H. unfold lacks. cbn [split_first]. now rewrite H. Qed.

Lemma digits_lack_T w n : lacks "T" (digits w n).
Proof.
  revert n. induction w as [|w IH]; intros n; cbn [digits]; [reflexivity|].
  apply lacks_app; [apply IH|].
  apply lacks_char, digit_char_not_T.
Qed.

Lemma iso_year_lacks_T y : lacks "T" (iso_year y).
Proof.
  unfold iso_year.
  destruct ((0 <=? y) && (y <=? 9999)); [apply digits_lack_T|].
  apply lacks_app; [|apply digits_lack_T].
  destruct (y <? 0); apply lacks_char; reflexivity.
Qed.

Lemma iso_date_lacks_T t : lacks "T" (iso_date t).
Proof.
  unfold iso_date.
  apply lacks_app; [apply iso_year_lacks_T|].
  apply (lacks_app "T" "-"); [apply lacks_char; reflexivity|].
  apply lacks_app; [apply digits_lack_T|].
  apply (lacks_app "T" "-"); [apply lacks_char; reflexivity|].
  apply digits_lack_T.
Qed.

(** The date part of the ISO text of a valid date. *)
Lemma toISOString_date rt t :
  match toISOString rt (Some t) with
  | Ok iso => Ok (split_first "T" iso)
  | Throw e => Throw e
  end = Ok (iso_date t) :> Result string.
Proof.
  cbn [toISOString]. f_equal.
  apply (split_first_app "T"), iso_date_lacks_T.
Qed.

End ESDateFacts.

(** In a zone of constant offset the start date is the UTC calendar date of
    the instant thirty days after the clock's reading. *)
Lemma start_date_constant_offset rt now :
  constant_offset rt ->
  Z.abs (now + 30 * ESDate.msPerDay) <= ESDate.maxTime ->
  start_date rt (Some now) = Ok (ESDate.iso_date (now + 30 * ESDate.msPerDay)).
Proof.
  intros Hz Hr. unfold start_date, start_time.
  rewrite ESDateFacts.setDate_constant_offset by assumption.
  unfold ESDate.TimeClip. apply Z.leb_le in Hr. rewrite Hr.
  apply ESDateFacts.toISOString_date.
Qed.

(** ** Effects *)

Ltac eff_unfold :=
  cbv beta iota zeta delta
    [run outcome calls bind try_catch await lift ret throw emit context_log context_error
     new_Date world trace fst snd].

Lemma Get_GetOpt rt v key : is_nullish v = false -> Get rt v key = Ok (GetOpt v key).
Proof.
  destruct v; try discriminate; intros _; try reflexivity.
  simpl. destruct (lookup key fields); reflexivity.
Qed.

Section CatchClause.
Context {W : Type} (env : Env W).

Lemma catch_error_state e (st : State W) :
  snd (catch_error env e st)
  = {| world := world st; trace := trace st ++ [logged_error e] |}.
Proof.
  unfold catch_error. eff_unfold.
  destruct (Get (runtime env) e "response"); [|reflexivity].
  destruct (truthy (GetOpt (GetOpt a "data") "detail")); [reflexivity|].
  destruct (Get (runtime env) e "message"); reflexivity.
Qed.

Lemma catch_error_response e (st : State W) :
  is_nullish e = false ->
  fst (catch_error env e st) = Ok (failure_response e).
Proof.
  intros He. unfold catch_error. eff_unfold.
  rewrite !(Get_GetOpt _ e) by assumption.
  unfold failure_response, failure_status, failure_message, reported_status,
    upstream_detail, exception_message, present, or_else.
  destruct (truthy (GetOpt (GetOpt (GetOpt e "response") "data") "detail"));
    destruct (truthy (GetOpt (GetOpt e "response") "status"));
    try destruct (truthy (GetOpt e "message")); reflexivity.
Qed.

Lemma catch_error_spec e (st : State W) :
  is_nullish e = false ->
  catch_error env e st
  = (Ok (failure_response e),
     {| world := world st; trace := trace st ++ [logged_error e] |}).
Proof.
  intros He. rewrite (surjective_pairing (catch_error env e st)).
  now rewrite catch_error_state, catch_error_response.
Qed.

(** A thrown [null] or [undefined] makes the catch clause itself throw. *)
Lemma catch_error_nullish e (st : State W) :
  is_nullish e = true ->
  catch_error env e st
  = (Throw (engine_error (runtime env) (ReadOfNullish e "response")),
     {| world := world st; trace := trace st ++ [logged_error e] |}).
Proof.
  intros He. unfold catch_error. eff_unfold.
  destruct e; try discriminate; reflexivity.
Qed.
End CatchClause.

(** ** The canonical webhook *)

Section CanonicalRuns.
Context {W : Type} (env : Env W) (request : HttpRequest W).
Let rt := runtime env.
Let cfg := config env.
Let handler := RecurringPaymentForm.initializeRecurringPayment env request.

Variables (w0 w1 : W) (bodyText paymentId : string).
Hypothesis Htext : request_text request w0 = (Ok bodyText, w1).
Hypothesis Hid : URLSearchParams_get rt bodyText "id" = Some paymentId.
Hypothesis Hne : paymentId <> "".

Ltac start :=
  unfold handler, RecurringPaymentForm.initializeRecurringPayment;
  eff_unfold; fold rt cfg;
  rewrite Htext, Hid;
  destruct paymentId as [|c0 s0] eqn:Epid; [congruence|];
  rewrite <- Epid in *; clear Epid.

Lemma run_client_fails e :
  createMollieClient env (MOLLIE_API_KEY cfg) = Throw e ->
  run handler w0
  = catch_error env e
      {| world := w1;
         trace := [ContextLog [VString "Creating recurring payment"];
                   RequestText;
                   ContextLog [VString "Webhook payload:"; VString bodyText];
                   ContextLog [VString ("Received webhook for payment: " ++ paymentId)]] |}.
Proof. intros Hc. start. rewrite Hc. reflexivity. Qed.

Hypothesis Hclient : createMollieClient env (MOLLIE_API_KEY cfg) = Ok tt.

Lemma run_lookup_fails e w2 :
  payments_get env paymentId w1 = (Throw e, w2) ->
  run handler w0
  = catch_error env e {| world := w2; trace := webhook_prefix bodyText paymentId |}.
Proof. intros Hg. start. rewrite Hclient, Hg. reflexivity. Qed.

Variables (payment : Payment) (w2 : W).
Hypothesis Hget : payments_get env paymentId w1 = (Ok payment, w2).

Lemma run_unpaid :
  payment_status payment <> "paid" ->
  run handler w0
  = (Ok received_response,
     {| world := w2;
        trace := webhook_prefix bodyText paymentId
                   ++ [ContextLog [VString ("Payment not successful, status: "
                                            ++ payment_status payment)]] |}).
Proof.
  intros Hs. start. rewrite Hclient, Hget.
  apply String.eqb_neq in Hs. rewrite Hs. reflexivity.
Qed.

Hypothesis Hpaid : payment_status payment = "paid".

Lemma run_start_date_fails e :
  start_date rt (Some (Date_now env w2)) = Throw e ->
  run handler w0
  = catch_error env e {| world := w2; trace := webhook_prefix bodyText paymentId |}.
Proof.
  intros Hd. start. rewrite Hclient, Hget, Hpaid, String.eqb_refl.
  cbv beta iota delta [negb]. rewrite Hd. reflexivity.
Qed.

Variable startDate : string.
Hypothesis Hdate : start_date rt (Some (Date_now env w2)) = Ok startDate.

Let customerId := of_option (payment_customerId payment).
Let params := webhook_subscription cfg customerId startDate.
Let active (s : Subscription) := String.eqb (subscription_status s) "active".

Lemma run_paid :
  run handler w0
  = match customerSubscriptions_create env params w2 with
    | (Throw e, w3) =>
        catch_error env e
          {| world := w3;
             trace := webhook_prefix bodyText paymentId ++ [SubscriptionsCreate params] |}
    | (Ok subscription, w3) =>
        match updateDataverseSubscription env customerId (active subscription) w3 with
        | (Throw e, w4) =>
            catch_error env e
              {| world := w4;
                 trace := webhook_prefix bodyText paymentId
                            ++ [SubscriptionsCreate params;
                                UpdateDataverseSubscription customerId
                                  (active subscription)] |}
        | (Ok _, w4) =>
            (Ok success_response,
             {| world := w4;
                trace := webhook_prefix bodyText paymentId
                           ++ [SubscriptionsCreate params;
                               UpdateDataverseSubscription customerId
                                 (active subscription)] |})
        end
    end.
Proof.
  start. rewrite Hclient, Hget, Hpaid, String.eqb_refl.
  cbv beta iota delta [negb]. rewrite Hdate.
  unfold params, webhook_subscription, customerId, active.
  destruct (customerSubscriptions_create env _ w2) as [[subscription|e] w3]; [|reflexivity].
  destruct (updateDataverseSubscription env _ _ w3) as [[u|e] w4]; reflexivity.
Qed.
End CanonicalRuns.

(** ** Claims on the canonical webhook *)


Lemma filter_app_single {A} (f : A -> bool) l x :
  filter f (l ++ [x]) = (filter f l ++ (if f x then [x] else []))%list.
Proof. now rewrite filter_app. Qed.

Section CanonicalClaims.
Context {W : Type} (env : Env W) (request : HttpRequest W).
Let handler := RecurringPaymentForm.initializeRecurringPayment env request.

Ltac open_scenario :=
  repeat match goal with
    | H : creates _ _ _ _ _ _ |- _ => destruct H as (? & ? & ? & ?)
    | H : reaches_creation _ _ _ _ _ _ |- _ => destruct H as (? & ? & ?)
    | H : resolves_to _ _ _ _ _ |- _ => destruct H as (? & ? & ? & ? & ? & ? & ? & ?)
    end.

(** The whole run of an activation that reaches the creation step. *)
Lemma run_reaches_creation w0 payment startDate w2 :
  reaches_creation env request w0 payment startDate w2 ->
  exists pre,
    filter is_subscription_creation pre = []
    /\ activation_flags pre = []
    /\ let customerId := of_option (payment_customerId payment) in
       let params := webhook_subscription (config env) customerId startDate in
       run handler w0
       = match customerSubscriptions_create env params w2 with
         | (Throw e, w3) =>
             catch_error env e
               {| world := w3; trace := pre ++ [SubscriptionsCreate params] |}
         | (Ok subscription, w3) =>
             let active := String.eqb (subscription_status subscription) "active" in
             match updateDataverseSubscription env customerId active w3 with
             | (Throw e, w4) =>
                 catch_error env e
                   {| world := w4;
                      trace := pre ++ [SubscriptionsCreate params;
                                       UpdateDataverseSubscription customerId active] |}
             | (Ok _, w4) =>
                 (Ok success_response,
                  {| world := w4;
                     trace := pre ++ [SubscriptionsCreate params;
                                      UpdateDataverseSubscription customerId active] |})
             end
         end.
Proof.
  intros H. open_scenario.
  eexists (webhook_prefix _ _). split; [reflexivity|]. split; [reflexivity|].
  cbv zeta. unfold handler. erewrite run_paid by eassumption. reflexivity.
Qed.

Lemma creations_when_reached w0 payment startDate w2 :
  reaches_creation env request w0 payment startDate w2 ->
  filter is_subscription_creation (calls handler w0)
  = [SubscriptionsCreate
       (webhook_subscription (config env) (of_option (payment_customerId payment))
          startDate)].
Proof.
  intros H. destruct (run_reaches_creation _ _ _ _ H) as (pre & Hpre & _ & Hrun).
  cbv zeta in Hrun. unfold calls. rewrite Hrun.
  destruct (customerSubscriptions_create env _ w2) as [[subscription|e] w3];
    [destruct (updateDataverseSubscription env _ _ w3) as [[u|e] w4]|];
    rewrite ?catch_error_state; cbn [snd trace world];
    rewrite ?filter_app, Hpre; reflexivity.
Qed.

(** C1, as amended: a paid payment leads to exactly one call of
    subscription creation, and once the creation and the record-store write
    have returned the handler answers HTTP 200 with [success: true],
    whatever the status of the created subscription. *)
Theorem paid_payment_creates_once w0 payment startDate w2 :
  reaches_creation env request w0 payment startDate w2 ->
  List.length (filter is_subscription_creation (calls handler w0)) = 1%nat
  /\ forall subscription w3 w4,
       customerSubscriptions_create env
         (webhook_subscription (config env) (of_option (payment_customerId payment))
            startDate) w2
       = (Ok subscription, w3) ->
       updateDataverseSubscription env (of_option (payment_customerId payment))
         (String.eqb (subscription_status subscription) "active") w3
       = (Ok tt, w4) ->
       outcome handler w0 = Ok success_response.
Proof.
  intros H. split.
  - now rewrite (creations_when_reached _ _ _ _ H).
  - intros subscription w3 w4 Hc Hu.
    destruct (run_reaches_creation _ _ _ _ H) as (pre & _ & _ & Hrun).
    cbv zeta in Hrun. unfold outcome. now rewrite Hrun, Hc, Hu.
Qed.

(** Every step of the activation runs inside the [try]. *)
Lemma failing_step_is_caught w0 e :
  fails_with env request w0 e ->
  is_nullish e = false ->
  outcome handler w0 = Ok (failure_response e).
Proof.
  intros H He. unfold outcome.
  destruct H as [w1 Ht | b p w1 Ht Hid Hne Hc | b p w1 w2 Ht Hid Hne Hc Hg
                | payment w2 Hr Hp Hd | payment startDate w2 w3 Hr Hc
                | payment subscription w3 w4 Hr Hu].
  - unfold handler, RecurringPaymentForm.initializeRecurringPayment.
    eff_unfold. rewrite Ht. now apply catch_error_response.
  - unfold handler. erewrite run_client_fails by eassumption.
    now apply catch_error_response.
  - unfold handler. erewrite run_lookup_fails by eassumption.
    now apply catch_error_response.
  - open_scenario. unfold handler. erewrite run_start_date_fails by eassumption.
    now apply catch_error_response.
  - destruct (run_reaches_creation _ _ _ _ Hr) as (pre & _ & _ & Hrun).
    cbv zeta in Hrun. rewrite Hrun, Hc. now apply catch_error_response.
  - destruct Hr as (startDate & w2 & Hr & Hc).
    destruct (run_reaches_creation _ _ _ _ Hr) as (pre & _ & _ & Hrun).
    cbv zeta in Hrun. rewrite Hrun, Hc, Hu. now apply catch_error_response.
Qed.

(** C2, as amended: whichever step of the activation throws a value other
    than [null] and [undefined] (reading the body, building the client, the
    payment lookup, the start date, subscription creation, the record-store
    write), the handler answers with the status the failing call reported,
    or 500, and the body [{success: false, error: message}], the message
    being the upstream detail, else the exception's message, else a
    fallback. *)
Theorem failure_is_reported w0 e :
  fails_with env request w0 e ->
  is_nullish e = false ->
  outcome handler w0
  = Ok {| status :=
            match reported_status e with
            | Some s => s
            | None => VNumber 500
            end;
          body := VUndefined;
          jsonBody :=
            VObject
              [("success", VBool false);
               ("error",
                match upstream_detail e with
                | Some d => d
                | None =>
                    match exception_message e with
                    | Some m => m
                    | None => VString "Unknown error"
                    end
                end)] |}.
Proof. exact (failing_step_is_caught w0 e). Qed.

(** C3: a payment whose status is not "paid" is acknowledged with HTTP 200
    and [{received: true}]; subscription creation and the record-store
    write are not called. *)
Theorem unpaid_payment_acknowledged w0 payment w2 :
  resolves_to env request w0 payment w2 ->
  payment_status payment <> "paid" ->
  outcome handler w0 = Ok received_response
  /\ filter is_subscription_creation (calls handler w0) = []
  /\ filter is_record_store_write (calls handler w0) = [].
Proof.
  intros H Hs. open_scenario. unfold outcome, calls, handler.
  erewrite run_unpaid by eassumption. repeat split.
Qed.

(** C4, as amended: when the record-store write throws a value other than
    [null] and [undefined] after the subscription was created, the response
    has [success: false] and a status that comes from the failure, the
    status it reported when that is truthy and 500 otherwise; the status is
    200 only when the failure itself reports 200. *)
Theorem record_store_failure_is_fatal w0 payment subscription w3 w4 e :
  creates env request w0 payment subscription w3 ->
  updateDataverseSubscription env (of_option (payment_customerId payment))
    (String.eqb (subscription_status subscription) "active") w3
  = (Throw e, w4) ->
  is_nullish e = false ->
  exists response,
    outcome handler w0 = Ok response
    /\ GetOpt (jsonBody response) "success" = VBool false
    /\ status response
       = match reported_status e with Some s => s | None => VNumber 500 end
    /\ (status response = VNumber 200 <-> reported_status e = Some (VNumber 200)).
Proof.
  intros Hc Hu He. exists (failure_response e). split.
  - apply failing_step_is_caught; [|assumption].
    eapply fails_record_store_write; eauto.
  - split; [reflexivity|]. split; [reflexivity|].
    cbn [status failure_response]. unfold failure_status.
    destruct (reported_status e) as [s|].
    + split; [intros -> | intros H; injection H as ->]; reflexivity.
    + split; intros H; discriminate H.
Qed.

(** C6: the activation flag written to the record store is [true] exactly
    when the status of the created subscription is "active". *)
Theorem activation_flag_iff_active w0 payment subscription w3 :
  creates env request w0 payment subscription w3 ->
  exists flag,
    activation_flags (calls handler w0) = [flag]
    /\ (flag = true <-> subscription_status subscription = "active").
Proof.
  intros (startDate & w2 & Hr & Hc).
  exists (String.eqb (subscription_status subscription) "active").
  split; [|apply String.eqb_eq].
  destruct (run_reaches_creation _ _ _ _ Hr) as (pre & _ & Hpre & Hrun).
  cbv zeta in Hrun. unfold calls. rewrite Hrun, Hc.
  assert (Happ : forall l1 l2, activation_flags (l1 ++ l2)
                               = (activation_flags l1 ++ activation_flags l2)%list).
  { induction l1 as [|ev l1 IH]; intros l2; [reflexivity|].
    destruct ev; cbn [activation_flags app]; rewrite ?IH; reflexivity. }
  destruct (updateDataverseSubscription env _ _ w3) as [[u|e] w4];
    rewrite ?catch_error_state; cbn [snd trace world];
    rewrite !Happ, Hpre; reflexivity.
Qed.

End CanonicalClaims.

(** ** The legacy webhook and the validator *)

Section LegacyClaims.
Context {W : Type} (env : Env W) (request : HttpRequest W).
Let handler := RecurringPaymentJson.initializeRecurringPayment env request.

(** C7: a JSON payload whose [success] field is [false] is answered with
    HTTP 400 and a fixed error text, and neither the payment provider nor
    the record store is called. *)
Theorem unsuccessful_payment_rejected w0 w1 requestBody :
  request_json request w0 = (Ok requestBody, w1) ->
  GetOpt requestBody "success" = VBool false ->
  outcome handler w0 = Ok (bad_request "Payment was not successful")
  /\ filter is_external_call (calls handler w0) = [].
Proof.
  intros Hj Hs.
  assert (Hn : is_nullish requestBody = false) by (destruct requestBody; easy).
  unfold outcome, calls, handler, RecurringPaymentJson.initializeRecurringPayment.
  eff_unfold. rewrite Hj, !(Get_GetOpt _ requestBody) by assumption.
  rewrite Hs. split; reflexivity.
Qed.
End LegacyClaims.

(** C10: the validator test handler answers [{ body: true }] whatever the
    request and the state of the world. *)
Theorem validator_answers_true {W : Type} (req : HttpRequest W) (w : W) :
  outcome (ValidatorTest.subscriptionValidatorTest req) w
  = Ok {| status := VUndefined; body := VBool true; jsonBody := VUndefined |}.
Proof. reflexivity. Qed.

(** ** Initial subscription *)

Section CreatorRuns.
Context {W : Type} (env : Env W).
Let rt := runtime env.

Lemma payment_posts_app l1 l2 :
  payment_posts (l1 ++ l2) = (payment_posts l1 ++ payment_posts l2)%list.
Proof.
  induction l1 as [|ev l1 IH]; [reflexivity|].
  destruct ev; cbn [payment_posts app]; rewrite ?IH; try reflexivity.
  destruct (String.eqb url "/payments"); reflexivity.
Qed.

Lemma payment_posts_external l :
  payment_posts l = payment_posts (filter is_external_call l).
Proof.
  induction l as [|ev l IH]; [reflexivity|].
  destruct ev; cbn [payment_posts filter is_external_call]; rewrite ?IH; reflexivity.
Qed.

(** The token callback only appends to the trace and reaches neither the
    payment provider nor the record store. *)
Lemma acquireToken_framed tenantId appId clientSecret dataverseUrl :
  framed (SubscriptionCreator.acquireToken env tenantId appId clientSecret dataverseUrl).
Proof.
  intros w tr. unfold SubscriptionCreator.acquireToken. eff_unfold.
  destruct (ClientSecretCredential_new env _ _ _) as [[]|e];
    [destruct (credential_getToken env _ _ _ _ w) as [[token|e] w']|];
    cbn [app]; rewrite <- ?app_assoc; reflexivity.
Qed.

Lemma acquireToken_quiet tenantId appId clientSecret dataverseUrl :
  quiet (SubscriptionCreator.acquireToken env tenantId appId clientSecret dataverseUrl).
Proof.
  intros w. unfold SubscriptionCreator.acquireToken. eff_unfold.
  destruct (ClientSecretCredential_new env _ _ _) as [[]|e];
    [destruct (credential_getToken env _ _ _ _ w) as [[token|e] w']|];
    reflexivity.
Qed.

(** Whatever the client does with the callback, the events of a create are
    appended to the trace, and none of them is an external call. *)
Lemma interact_frame (onTokenRefresh : M W string) (client : Client W) :
  framed onTokenRefresh ->
  quiet onTokenRefresh ->
  exists result w' events,
    filter is_external_call events = []
    /\ forall tr,
         interact onTokenRefresh client tr
         = (result, {| world := w'; trace := tr ++ events |}).
Proof.
  intros Hf Hq. induction client as [result w | w next IH].
  - exists result, w, []. split; [reflexivity|].
    intros tr. cbn [interact]. now rewrite app_nil_r.
  - pose proof (Hq w) as Hq0. unfold run in Hq0.
    destruct (onTokenRefresh {| world := w; trace := [] |}) as [token [w0 q0]] eqn:E.
    cbn [snd trace] in Hq0.
    destruct (IH token w0) as (result & w' & events & Hev & Hrun).
    exists result, w', (q0 ++ events)%list. split.
    + now rewrite filter_app, Hq0, Hev.
    + intros tr. cbn [interact]. rewrite (Hf w tr). unfold run. rewrite E.
      cbn [fst snd world trace]. rewrite Hrun. now rewrite app_assoc.
Qed.

Lemma create_frame (onTokenRefresh : M W string) serverUrl collection data (w : W) :
  framed onTokenRefresh ->
  quiet onTokenRefresh ->
  exists result w' events,
    filter is_external_call events = []
    /\ forall tr,
         SubscriptionCreator.create env onTokenRefresh serverUrl collection data
           {| world := w; trace := tr |}
         = (result,
            {| world := w';
               trace := tr ++ DynamicsCreate serverUrl collection data :: events |}).
Proof.
  intros Hf Hq.
  destruct (interact_frame onTokenRefresh
              (DynamicsWebApi_create env serverUrl collection data w) Hf Hq)
    as (result & w' & events & Hev & Hrun).
  exists result, w', events. split; [assumption|].
  intros tr. unfold SubscriptionCreator.create. cbn [world trace].
  rewrite Hrun. now rewrite <- app_assoc.
Qed.

(** The whole of the write: what it returns, the world it leaves and the
    events it appends, whatever the trace was. *)
Lemma writeCustomerToDataverse_run customerId email (w : W) :
  exists result w' events,
    (filter is_external_call events = []
     \/ exists rest,
          filter is_external_call rest = []
          /\ events
             = DynamicsCreate (store_url (config env)) (store_collection (config env))
                 (store_record (config env) customerId email) :: rest
          /\ URL_valid (runtime env) (store_url (config env)) = true)
    /\ forall tr,
         SubscriptionCreator.writeCustomerToDataverse env customerId email
           {| world := w; trace := tr |}
         = (result, {| world := w'; trace := tr ++ events |}).
Proof.
  unfold SubscriptionCreator.writeCustomerToDataverse.
  destruct (_ || _ || _ || _).
  { do 2 eexists. exists []. split; [left; reflexivity|].
    intros tr. unfold throw. now rewrite app_nil_r. }
  pose (u := SubscriptionCreator.env_or (DATAVERSE_URL (config env)) "").
  assert (Hnorm : (if negb (String.prefix "https://" u) then "https://" ++ u else u)
                  = store_url (config env))
    by (unfold store_url; fold u; cbv zeta; destruct (String.prefix "https://" u);
        reflexivity).
  fold u. cbv zeta. rewrite Hnorm.
  fold (store_callback env).
  change (SubscriptionCreator.env_or (ENTITY_NAME (config env)) "contacts")
    with (store_collection (config env)).
  change (SubscriptionCreator.make_record
            (SubscriptionCreator.env_or (CLIENT_ID_FIELD (config env)) "mollie_customer_id")
            (SubscriptionCreator.env_or (EMAIL_FIELD (config env)) "emailaddress1")
            customerId email)
    with (store_record (config env) customerId email).
  destruct (create_frame (store_callback env) (store_url (config env))
              (store_collection (config env)) (store_record (config env) customerId email)
              w (acquireToken_framed _ _ _ _) (acquireToken_quiet _ _ _ _))
    as (created & w' & events & Hev & Hcreate).
  eff_unfold.
  destruct (URL_valid (runtime env) (store_url (config env))) eqn:Hv.
  2:{ do 3 eexists. split. 2:{ intros tr. reflexivity. } left; reflexivity. }
  destruct (DynamicsWebApi_new env (store_url (config env))) as [[]|e].
  2:{ do 2 eexists. exists []. split; [left; reflexivity|].
      intros tr. now rewrite app_nil_r. }
  destruct created as [created|e].
  - destruct (ToString (runtime env) created) as [shown|e] eqn:Hs.
    + do 2 eexists.
      eexists (_ :: events ++ [ContextLog _])%list. split.
      * right. eexists. split; [|split; reflexivity].
        now rewrite filter_app, Hev.
      * intros tr. rewrite Hcreate, Hs. rewrite <- app_assoc. reflexivity.
    + do 2 eexists.
      eexists (_ :: events ++ [ContextError _])%list. split.
      * right. eexists. split; [|split; reflexivity].
        now rewrite filter_app, Hev.
      * intros tr. rewrite Hcreate, Hs. rewrite <- app_assoc. reflexivity.
  - do 2 eexists.
    eexists (_ :: events ++ [ContextError _])%list. split.
    + right. eexists. split; [|split; reflexivity].
      now rewrite filter_app, Hev.
    + intros tr. rewrite Hcreate. rewrite <- app_assoc. reflexivity.
Qed.

(** The record-store write only appends to the trace, and posts nothing to
    the payment provider. *)
Lemma writeCustomerToDataverse_frame customerId email (w : W) (tr : list Event) :
  let m := SubscriptionCreator.writeCustomerToDataverse env customerId email in
  m {| world := w; trace := tr |}
  = (fst (run m w),
     {| world := world (snd (run m w)); trace := tr ++ trace (snd (run m w)) |}).
Proof.
  cbv zeta.
  destruct (writeCustomerToDataverse_run customerId email w)
    as (result & w' & events & _ & Hrun).
  unfold run. rewrite (Hrun tr), (Hrun []). reflexivity.
Qed.

Lemma writeCustomerToDataverse_posts customerId email (w : W) :
  payment_posts
    (trace (snd (run (SubscriptionCreator.writeCustomerToDataverse env customerId email) w)))
  = [].
Proof.
  destruct (writeCustomerToDataverse_run customerId email w)
    as (result & w' & events & Hev & Hrun).
  unfold run. rewrite (Hrun []). cbn [snd trace app].
  rewrite payment_posts_external.
  destruct Hev as [-> | (rest & Hrest & -> & _)]; [reflexivity|].
  cbn [filter is_external_call]. now rewrite Hrest.
Qed.
End CreatorRuns.

Section CreatorClaims.
Context {W : Type} (env : Env W) (request : HttpRequest W).
Let rt := runtime env.
Let handler := SubscriptionCreator.initializeSubscription env request.

(** C5: when the record-store write throws, the handler still creates the
    first payment and answers HTTP 200 with [success: true], the customer
    id, the payment id and the checkout URL; the failure does not show in
    the response. *)
Theorem record_store_failure_is_swallowed
    w0 requestBody email customerId w2 err st paymentData w4 paymentId href :
  customer_created env request w0 requestBody email customerId w2 ->
  run (SubscriptionCreator.writeCustomerToDataverse env (VString customerId)
         (VString email)) w2
  = (Throw err, st) ->
  axios_post env (SubscriptionCreator.mollieClient env) "/payments"
    (SubscriptionCreator.first_payment env (GetOpt requestBody "amount")
       (VString customerId)) (world st)
  = (Ok paymentData, w4) ->
  checkout_link env paymentData paymentId href ->
  outcome handler w0
  = Ok {| status := VNumber 200;
          body := VUndefined;
          jsonBody := VObject [("success", VBool true);
                               ("customerId", VString customerId);
                               ("paymentId", paymentId);
                               ("checkoutUrl", href)] |}
  /\ payment_posts (calls handler w0)
     = [SubscriptionCreator.first_payment env (GetOpt requestBody "amount")
          (VString customerId)].
Proof.
  intros (w1 & customerData & Hj & Hemail & Hne & Hc & Hid) Hw Hp
         (links & checkout & Hg1 & Hg2 & Hg3 & Hg4).
  assert (Hn : is_nullish requestBody = false)
    by (destruct requestBody; try discriminate Hemail; reflexivity).
  assert (Hn2 : is_nullish customerData = false)
    by (destruct customerData; try discriminate Hid; reflexivity).
  apply String.eqb_neq in Hne.
  pose proof (writeCustomerToDataverse_posts env (VString customerId) (VString email) w2)
    as Hposts.
  rewrite Hw in Hposts. cbn [snd] in Hposts.
  unfold outcome, calls, handler, SubscriptionCreator.initializeSubscription.
  eff_unfold.
  rewrite Hj, !(Get_GetOpt _ requestBody) by assumption.
  rewrite Hemail. cbn [truthy ToString call_split_first]. rewrite Hne. cbn [negb].
  unfold SubscriptionCreator.post. eff_unfold.
  unfold customer_request in Hc.
  destruct (truthy (GetOpt requestBody "name")); eff_unfold;
    rewrite Hc, (Get_GetOpt _ customerData), Hid by assumption;
    cbn [ToString]; eff_unfold;
    rewrite writeCustomerToDataverse_frame; cbv zeta; rewrite Hw;
    eff_unfold; destruct st as [w3 tr3]; cbn [world trace] in *;
    rewrite Hp; eff_unfold; rewrite Hg1, Hg2; eff_unfold; rewrite Hg3; eff_unfold;
    rewrite Hg4;
    (split; [reflexivity|]);
    rewrite !payment_posts_app, Hposts; reflexivity.
Qed.

Lemma catch_error_posts e (st : State W) :
  payment_posts (trace (snd (catch_error env e st))) = payment_posts (trace st).
Proof.
  rewrite catch_error_state. cbn [trace].
  now rewrite payment_posts_app, app_nil_r.
Qed.

(** The handler posts to [/payments] at most once, and then the body built
    from the request's amount. *)
Lemma payment_posts_of_run w0 :
  payment_posts (calls handler w0) = []
  \/ exists w1 requestBody customerId,
       request_json request w0 = (Ok requestBody, w1)
       /\ payment_posts (calls handler w0)
          = [SubscriptionCreator.first_payment env (GetOpt requestBody "amount") customerId].
Proof.
  unfold calls.
  set (posts := fun p : Result HttpResponseInit * State W =>
                  payment_posts (trace (snd p))).
  change (posts (run handler w0) = []
          \/ exists w1 requestBody customerId,
               request_json request w0 = (Ok requestBody, w1)
               /\ posts (run handler w0)
                  = [SubscriptionCreator.first_payment env
                       (GetOpt requestBody "amount") customerId]).
  assert (Hcatch : forall e st, posts (catch_error env e st) = payment_posts (trace st))
    by (intros; apply catch_error_posts).
  unfold handler, SubscriptionCreator.initializeSubscription,
    SubscriptionCreator.post.
  eff_unfold.
  destruct (request_json request w0) as [[requestBody|e] w1];
    [|left; rewrite Hcatch; reflexivity].
  destruct (is_nullish requestBody) eqn:Hn.
  { left. destruct requestBody; try discriminate Hn;
      cbn [Get]; rewrite Hcatch; reflexivity. }
  rewrite !(Get_GetOpt _ requestBody) by assumption.
  set (email := GetOpt requestBody "email").
  set (name := GetOpt requestBody "name").
  set (amount := GetOpt requestBody "amount").
  destruct (truthy email); cbn [negb]; [|left; reflexivity].
  destruct (ToString (runtime env) email) as [shown|e];
    [|left; rewrite Hcatch; reflexivity].
  eff_unfold.
  destruct (truthy name);
    [|destruct (call_split_first (runtime env) email "@") as [name'|e];
      [|left; rewrite Hcatch; reflexivity]].
  all: match goal with
       | |- context [axios_post env ?c "/customers" ?d ?w] =>
           destruct (axios_post env c "/customers" d w) as [[customerData|e] w2]
       end; [|left; rewrite Hcatch; reflexivity].
  all: destruct (Get (runtime env) customerData "id") as [customerId|e];
    [|left; rewrite Hcatch; reflexivity].
  all: destruct (ToString (runtime env) customerId) as [shown'|e];
    [|left; rewrite Hcatch; reflexivity].
  all: rewrite writeCustomerToDataverse_frame; cbv zeta;
    pose proof (writeCustomerToDataverse_posts env customerId email w2) as Hposts;
    destruct (run (SubscriptionCreator.writeCustomerToDataverse env customerId email) w2)
      as [[r|e] [w3 tr3]];
    cbn [fst snd world trace] in *.
  all: match goal with
       | |- context [axios_post env ?c "/payments" ?d ?w] =>
           destruct (axios_post env c "/payments" d w) as [[paymentData|e'] w4]
       end.
  all: repeat match goal with
         | |- context [Get ?r ?v ?k] => destruct (Get r v k)
         end.
  all: right; exists w1, requestBody, customerId; split; [reflexivity|];
    rewrite ?Hcatch; unfold posts; cbn [snd trace];
    rewrite !payment_posts_app, Hposts; reflexivity.
Qed.

(** C9: when the request has no amount, or a falsy one, every first payment
    the handler creates carries the amount "0.01" in EUR, whatever the
    configuration. *)
Theorem default_amount_applied w0 w1 requestBody :
  request_json request w0 = (Ok requestBody, w1) ->
  truthy (GetOpt requestBody "amount") = false ->
  forall data,
    In data (payment_posts (calls handler w0)) ->
    GetOpt data "amount"
    = VObject [("currency", VString "EUR"); ("value", VString "0.01")].
Proof.
  intros Hj Ha data Hin.
  destruct (payment_posts_of_run w0) as [Hnone | (w1' & body & cid & Hj' & Hone)].
  - rewrite Hnone in Hin. contradiction.
  - rewrite Hj in Hj'. injection Hj' as <- <-.
    rewrite Hone in Hin. destruct Hin as [<- | []].
    cbn. unfold or_else. now rewrite Ha.
Qed.
End CreatorClaims.

(** ** The claims on the sample deployment *)

Lemma sample_resolves payment subscription written :
  resolves_to (Sample.env (Ok payment) subscription written)
    (Sample.request (Ok VNull) (Ok "id=tr_1")) Sample.clock payment Sample.clock.
Proof.
  exists "id=tr_1", "tr_1", Sample.clock.
  repeat split; try reflexivity. discriminate.
Defined.

Lemma sample_reaches subscription written :
  reaches_creation (Sample.env (Ok Sample.paid) subscription written)
    (Sample.request (Ok VNull) (Ok "id=tr_1")) Sample.clock Sample.paid "2025-03-31"
    Sample.clock.
Proof.
  split; [apply sample_resolves|]. split; [reflexivity|].
  vm_compute. reflexivity.
Defined.

Lemma sample_creates subscription written :
  creates (Sample.env (Ok Sample.paid) (Ok subscription) written)
    (Sample.request (Ok VNull) (Ok "id=tr_1")) Sample.clock Sample.paid subscription
    Sample.clock.
Proof.
  exists "2025-03-31", Sample.clock. split; [apply sample_reaches | reflexivity].
Defined.

Lemma sample_customer_created :
  customer_created (Sample.env (Ok Sample.paid) (Ok Sample.active) (Ok tt))
    (Sample.request (Ok (VObject [("email", VString "anna@example.org")])) (Ok ""))
    Sample.clock (VObject [("email", VString "anna@example.org")])
    "anna@example.org" "cst_1" Sample.clock.
Proof.
  exists Sample.clock, Sample.customer.
  repeat split; try reflexivity. discriminate.
Defined.

(** C1, as the specification states it, fails: the created subscription is
    "pending", and the handler answers HTTP 200 with [success: true]. *)
Lemma success_reported_for_pending_subscription :
  creates (Sample.env (Ok Sample.paid) (Ok Sample.pending) (Ok tt))
    (Sample.request (Ok VNull) (Ok "id=tr_1")) Sample.clock Sample.paid Sample.pending
    Sample.clock
  /\ subscription_status Sample.pending <> "active"
  /\ outcome
       (RecurringPaymentForm.initializeRecurringPayment
          (Sample.env (Ok Sample.paid) (Ok Sample.pending) (Ok tt))
          (Sample.request (Ok VNull) (Ok "id=tr_1"))) Sample.clock
     = Ok {| status := VNumber 200;
             body := VUndefined;
             jsonBody := VObject [("success", VBool true)] |}.
Proof.
  split; [apply sample_creates|]. split; [discriminate|].
  vm_compute. reflexivity.
Qed.

(** C2, as the specification states it, fails: the payment lookup throws
    [null], and the handler returns no response, its promise rejects. *)
Lemma null_exception_gets_no_response :
  fails_with (Sample.env (Throw VNull) (Ok Sample.active) (Ok tt))
    (Sample.request (Ok VNull) (Ok "id=tr_1")) Sample.clock VNull
  /\ outcome
       (RecurringPaymentForm.initializeRecurringPayment
          (Sample.env (Throw VNull) (Ok Sample.active) (Ok tt))
          (Sample.request (Ok VNull) (Ok "id=tr_1"))) Sample.clock
     = Throw (engine_error Sample.host (ReadOfNullish VNull "response")).
Proof.
  split.
  - apply (fails_payment_lookup _ _ _ _ "id=tr_1" "tr_1" Sample.clock Sample.clock);
      try reflexivity. discriminate.
  - vm_compute. reflexivity.
Qed.

(** C4, as the specification states it, fails: the record-store write fails
    with an error whose response has status 200, and the handler answers
    with status 200. *)
Lemma record_store_failure_answered_with_200 :
  creates (Sample.env (Ok Sample.paid) (Ok Sample.active)
             (Throw (Sample.http_error 200 "Accepted")))
    (Sample.request (Ok VNull) (Ok "id=tr_1")) Sample.clock Sample.paid Sample.active
    Sample.clock
  /\ updateDataverseSubscription
       (Sample.env (Ok Sample.paid) (Ok Sample.active)
          (Throw (Sample.http_error 200 "Accepted")))
       (VString "cst_1") true Sample.clock
     = (Throw (Sample.http_error 200 "Accepted"), Sample.clock)
  /\ outcome
       (RecurringPaymentForm.initializeRecurringPayment
          (Sample.env (Ok Sample.paid) (Ok Sample.active)
             (Throw (Sample.http_error 200 "Accepted")))
          (Sample.request (Ok VNull) (Ok "id=tr_1"))) Sample.clock
     = Ok {| status := VNumber 200;
             body := VUndefined;
             jsonBody := VObject [("success", VBool false);
                                  ("error", VString "Accepted")] |}.
Proof.
  split; [apply sample_creates|]. split; [reflexivity|].
  vm_compute. reflexivity.
Qed.


Lemma paid_payment_creates_once_witness :
  List.length
    (filter is_subscription_creation
       (calls
          (RecurringPaymentForm.initializeRecurringPayment
             (Sample.env (Ok Sample.paid) (Ok Sample.pending) (Ok tt))
             (Sample.request (Ok VNull) (Ok "id=tr_1"))) Sample.clock))
  = 1%nat.
Proof.
  exact (proj1 (paid_payment_creates_once _ _ _ _ _ _
                  (sample_reaches (Ok Sample.pending) (Ok tt)))).
Defined.

Lemma failure_is_reported_witness :
  outcome
    (RecurringPaymentForm.initializeRecurringPayment
       (Sample.env (Throw (Sample.http_error 404 "No payment exists")) (Ok Sample.active)
          (Ok tt))
       (Sample.request (Ok VNull) (Ok "id=tr_1"))) Sample.clock
  = Ok {| status := VNumber 404;
          body := VUndefined;
          jsonBody := VObject [("success", VBool false);
                               ("error", VString "No payment exists")] |}.
Proof.
  apply (failure_is_reported
           (Sample.env (Throw (Sample.http_error 404 "No payment exists"))
              (Ok Sample.active) (Ok tt))
           (Sample.request (Ok VNull) (Ok "id=tr_1")) Sample.clock
           (Sample.http_error 404 "No payment exists")).
  - apply (fails_payment_lookup _ _ _ _ "id=tr_1" "tr_1" Sample.clock Sample.clock);
      try reflexivity. discriminate.
  - reflexivity.
Defined.

Lemma unpaid_payment_acknowledged_witness :
  outcome
    (RecurringPaymentForm.initializeRecurringPayment
       (Sample.env (Ok Sample.open) (Ok Sample.active) (Ok tt))
       (Sample.request (Ok VNull) (Ok "id=tr_1"))) Sample.clock
  = Ok received_response.
Proof.
  apply (unpaid_payment_acknowledged _ _ _ Sample.open Sample.clock).
  - apply sample_resolves.
  - discriminate.
Defined.

Lemma record_store_failure_is_fatal_witness :
  exists response,
    outcome
      (RecurringPaymentForm.initializeRecurringPayment
         (Sample.env (Ok Sample.paid) (Ok Sample.active)
            (Throw (Sample.http_error 503 "Dataverse is unavailable")))
         (Sample.request (Ok VNull) (Ok "id=tr_1"))) Sample.clock
    = Ok response
    /\ GetOpt (jsonBody response) "success" = VBool false
    /\ status response = VNumber 503
    /\ (status response = VNumber 200
        <-> Some (VNumber 503) = Some (VNumber 200)).
Proof.
  apply (record_store_failure_is_fatal
           (Sample.env (Ok Sample.paid) (Ok Sample.active)
              (Throw (Sample.http_error 503 "Dataverse is unavailable")))
           (Sample.request (Ok VNull) (Ok "id=tr_1"))
           Sample.clock Sample.paid Sample.active Sample.clock Sample.clock
           (Sample.http_error 503 "Dataverse is unavailable")).
  - apply sample_creates.
  - reflexivity.
  - reflexivity.
Defined.

Lemma record_store_failure_is_swallowed_witness :
  outcome
    (SubscriptionCreator.initializeSubscription
       (Sample.env (Ok Sample.paid) (Ok Sample.active) (Ok tt))
       (Sample.request (Ok (VObject [("email", VString "anna@example.org")])) (Ok "")))
    Sample.clock
  = Ok {| status := VNumber 200;
          body := VUndefined;
          jsonBody := VObject [("success", VBool true);
                               ("customerId", VString "cst_1");
                               ("paymentId", VString "tr_1");
                               ("checkoutUrl", VString "https://pay.example.org/tr_1")] |}.
Proof.
  refine (proj1 (record_store_failure_is_swallowed _ _ _ _ _ _ _
                   (new_Error "Missing required environment variables for Dataverse connection")
                   {| world := Sample.clock; trace := [] |}
                   Sample.first_payment_data Sample.clock _ _
                   sample_customer_created _ _ _)).
  - reflexivity.
  - reflexivity.
  - exists (VObject [("checkout",
                      VObject [("href", VString "https://pay.example.org/tr_1")])]),
      (VObject [("href", VString "https://pay.example.org/tr_1")]).
    repeat split.
Defined.

Lemma activation_flag_iff_active_witness :
  exists flag,
    activation_flags
      (calls
         (RecurringPaymentForm.initializeRecurringPayment
            (Sample.env (Ok Sample.paid) (Ok Sample.pending) (Ok tt))
            (Sample.request (Ok VNull) (Ok "id=tr_1"))) Sample.clock)
    = [flag]
    /\ (flag = true <-> subscription_status Sample.pending = "active").
Proof.
  exact (activation_flag_iff_active _ _ _ _ _ _ (sample_creates Sample.pending (Ok tt))).
Defined.

Lemma unsuccessful_payment_rejected_witness :
  outcome
    (RecurringPaymentJson.initializeRecurringPayment
       (Sample.env (Ok Sample.paid) (Ok Sample.active) (Ok tt))
       (Sample.request
          (Ok (VObject [("customerId", VString "cst_1"); ("success", VBool false)]))
          (Ok ""))) Sample.clock
  = Ok (bad_request "Payment was not successful").
Proof.
  refine (proj1 (unsuccessful_payment_rejected _ _ Sample.clock Sample.clock
                   (VObject [("customerId", VString "cst_1"); ("success", VBool false)])
                   _ _)); reflexivity.
Defined.


Lemma default_amount_applied_witness :
  GetOpt
    (SubscriptionCreator.first_payment
       (Sample.env (Ok Sample.paid) (Ok Sample.active) (Ok tt)) VUndefined
       (VString "cst_1")) "amount"
  = VObject [("currency", VString "EUR"); ("value", VString "0.01")].
Proof.
  apply (default_amount_applied
           (Sample.env (Ok Sample.paid) (Ok Sample.active) (Ok tt))
           (Sample.request (Ok (VObject [("email", VString "anna@example.org")])) (Ok ""))
           Sample.clock Sample.clock (VObject [("email", VString "anna@example.org")])).
  - reflexivity.
  - reflexivity.
  - vm_compute. left. reflexivity.
Defined.

(** ** Further properties of the webhook handlers *)

Section WebhookOrder.
Context {W : Type} (env : Env W) (request : HttpRequest W).

Lemma catch_error_external e (st : State W) :
  filter is_external_call (trace (snd (catch_error env e st)))
  = filter is_external_call (trace st).
Proof.
  rewrite catch_error_state. cbn [trace].
  now rewrite filter_app, app_nil_r.
Qed.

(** X1: a form body without an [id], or with an empty one, is answered with
    HTTP 400 "Missing payment ID"; the payment provider and the record store
    are not called. *)
Theorem webhook_missing_id_rejected w0 w1 bodyText :
  request_text request w0 = (Ok bodyText, w1) ->
  URLSearchParams_get (runtime env) bodyText "id" = None
  \/ URLSearchParams_get (runtime env) bodyText "id" = Some "" ->
  outcome (RecurringPaymentForm.initializeRecurringPayment env request) w0
  = Ok (bad_request "Missing payment ID")
  /\ filter is_external_call
       (calls (RecurringPaymentForm.initializeRecurringPayment env request) w0)
     = [].
Proof.
  intros Ht Hid.
  unfold outcome, calls, RecurringPaymentForm.initializeRecurringPayment.
  eff_unfold. rewrite Ht.
  destruct Hid as [-> | ->]; split; reflexivity.
Qed.

(** X2: in every run the canonical webhook calls the collaborators at most
    once each and in one order: the payment lookup, then subscription
    creation, then the record-store write; no later call happens without the
    earlier ones. *)
Theorem webhook_calls_in_order w0 :
  let made :=
    filter is_external_call
      (calls (RecurringPaymentForm.initializeRecurringPayment env request) w0) in
  made = []
  \/ (exists id, made = [PaymentsGet id])
  \/ (exists id p, made = [PaymentsGet id; SubscriptionsCreate p])
  \/ (exists id p c f,
        made = [PaymentsGet id; SubscriptionsCreate p; UpdateDataverseSubscription c f]).
Proof.
  unfold calls.
  set (ext := fun p : Result HttpResponseInit * State W =>
                filter is_external_call (trace (snd p))).
  change (let made := ext (run (RecurringPaymentForm.initializeRecurringPayment env request) w0) in
          made = []
          \/ (exists id, made = [PaymentsGet id])
          \/ (exists id p, made = [PaymentsGet id; SubscriptionsCreate p])
          \/ (exists id p c f,
                made = [PaymentsGet id; SubscriptionsCreate p;
                        UpdateDataverseSubscription c f])).
  assert (Hcatch : forall e st, ext (catch_error env e st)
                                = filter is_external_call (trace st))
    by (intros; apply catch_error_external).
  cbv zeta. unfold RecurringPaymentForm.initializeRecurringPayment. eff_unfold.
  destruct (request_text request w0) as [[bodyText|e] w1];
    [|left; rewrite Hcatch; reflexivity].
  destruct (URLSearchParams_get (runtime env) bodyText "id") as [[|c0 s0]|];
    [left; reflexivity| |left; reflexivity].
  destruct (createMollieClient env _) as [[]|e];
    [|left; rewrite Hcatch; reflexivity].
  destruct (payments_get env _ w1) as [[payment|e] w2];
    [|right; left; eexists; rewrite Hcatch; reflexivity].
  destruct (negb _); [right; left; eexists; reflexivity|].
  eff_unfold.
  destruct (start_date (runtime env) _) as [startDate|e];
    [|right; left; eexists; rewrite Hcatch; reflexivity].
  destruct (customerSubscriptions_create env _ w2) as [[subscription|e] w3];
    [|right; right; left; do 2 eexists; rewrite Hcatch; reflexivity].
  destruct (updateDataverseSubscription env _ _ w3) as [[u|e] w4];
    right; right; right; do 4 eexists; rewrite ?Hcatch; reflexivity.
Qed.
End WebhookOrder.

Section LegacyOrder.
Context {W : Type} (env : Env W) (request : HttpRequest W).

(** X3: the legacy webhook never looks the payment up: in every run its
    calls are subscription creation, then the record-store write, each at
    most once, or nothing. *)
Theorem legacy_calls_in_order w0 :
  let made :=
    filter is_external_call
      (calls (RecurringPaymentJson.initializeRecurringPayment env request) w0) in
  made = []
  \/ (exists p, made = [SubscriptionsCreate p])
  \/ (exists p c f, made = [SubscriptionsCreate p; UpdateDataverseSubscription c f]).
Proof.
  unfold calls.
  set (ext := fun p : Result HttpResponseInit * State W =>
                filter is_external_call (trace (snd p))).
  change (let made := ext (run (RecurringPaymentJson.initializeRecurringPayment env request) w0) in
          made = []
          \/ (exists p, made = [SubscriptionsCreate p])
          \/ (exists p c f,
                made = [SubscriptionsCreate p; UpdateDataverseSubscription c f])).
  assert (Hcatch : forall e st, ext (catch_error env e st)
                                = filter is_external_call (trace st))
    by (intros; apply catch_error_external).
  cbv zeta. unfold RecurringPaymentJson.initializeRecurringPayment. eff_unfold.
  destruct (request_json request w0) as [[requestBody|e] w1];
    [|left; rewrite Hcatch; reflexivity].
  destruct (Get (runtime env) requestBody "customerId") as [customerId|e];
    [|left; rewrite Hcatch; reflexivity].
  destruct (Get (runtime env) requestBody "success") as [success|e];
    [|left; rewrite Hcatch; reflexivity].
  destruct (negb _); [left; reflexivity|].
  eff_unfold.
  destruct (createMollieClient env _) as [[]|e];
    [|left; rewrite Hcatch; reflexivity].
  destruct (start_date (runtime env) _) as [startDate|e];
    [|left; rewrite Hcatch; reflexivity].
  destruct (customerSubscriptions_create env _ w1) as [[subscription|e] w2];
    [|right; left; eexists; rewrite Hcatch; reflexivity].
  destruct (updateDataverseSubscription env _ _ w2) as [[u|e] w3];
    right; right; do 3 eexists; rewrite ?Hcatch; reflexivity.
Qed.

(** X4: the legacy webhook, told that the payment succeeded, creates one
    subscription for the customer id of the request body (EUR, the configured
    amount, twelve times, "1 days", the computed start date, an empty
    description, the configured webhook), writes the flag "status is active"
    for that customer, and answers HTTP 200 with [success: true]. *)
Theorem legacy_activation w0 w1 requestBody startDate subscription w2 w3 :
  request_json request w0 = (Ok requestBody, w1) ->
  truthy (GetOpt requestBody "success") = true ->
  createMollieClient env (MOLLIE_API_KEY (config env)) = Ok tt ->
  start_date (runtime env) (Some (Date_now env w1)) = Ok startDate ->
  customerSubscriptions_create env
    (legacy_subscription (config env) (GetOpt requestBody "customerId") startDate) w1
  = (Ok subscription, w2) ->
  updateDataverseSubscription env (GetOpt requestBody "customerId")
    (String.eqb (subscription_status subscription) "active") w2
  = (Ok tt, w3) ->
  outcome (RecurringPaymentJson.initializeRecurringPayment env request) w0
  = Ok success_response
  /\ filter is_external_call
       (calls (RecurringPaymentJson.initializeRecurringPayment env request) w0)
     = [SubscriptionsCreate
          (legacy_subscription (config env) (GetOpt requestBody "customerId") startDate);
        UpdateDataverseSubscription (GetOpt requestBody "customerId")
          (String.eqb (subscription_status subscription) "active")].
Proof.
  intros Hj Hs Hc Hd Hcr Hu.
  assert (Hn : is_nullish requestBody = false)
    by (destruct requestBody; try discriminate Hs; reflexivity).
  unfold outcome, calls, RecurringPaymentJson.initializeRecurringPayment.
  eff_unfold. rewrite Hj, !(Get_GetOpt _ requestBody) by assumption.
  rewrite Hs. cbv beta iota delta [negb]. rewrite Hc, Hd.
  unfold legacy_subscription in Hcr, Hu. rewrite Hcr, Hu. split; reflexivity.
Qed.

(** X5: a JSON body that is [null] makes the legacy webhook answer with the
    failure response of the engine's TypeError (status 500) without calling
    any collaborator. *)
Theorem legacy_null_body_fails w0 w1 :
  request_json request w0 = (Ok VNull, w1) ->
  outcome (RecurringPaymentJson.initializeRecurringPayment env request) w0
  = Ok {| status := VNumber 500;
          body := VUndefined;
          jsonBody :=
            VObject
              [("success", VBool false);
               ("error",
                or_else
                  (VString (engine_message (runtime env) (ReadOfNullish VNull "customerId")))
                  (VString "Unknown error"))] |}
  /\ filter is_external_call
       (calls (RecurringPaymentJson.initializeRecurringPayment env request) w0)
     = [].
Proof.
  intros Hj.
  unfold outcome, calls, RecurringPaymentJson.initializeRecurringPayment.
  eff_unfold. rewrite Hj. cbn [Get].
  unfold catch_error. eff_unfold. cbn. split; reflexivity.
Qed.
End LegacyOrder.

(** ** Further properties of the record-store write *)

Section StoreWrite.
Context {W : Type} (env : Env W).

Lemma prefix_app (p s : string) : String.prefix p (p ++ s) = true.
Proof.
  induction p as [|c p IH]; [now destruct s|].
  cbn. destruct (ascii_dec c c); [assumption | contradiction].
Qed.

Lemma store_url_https cfg : String.prefix "https://" (store_url cfg) = true.
Proof.
  unfold store_url. cbv zeta.
  destruct (String.prefix "https://" (SubscriptionCreator.env_or (DATAVERSE_URL cfg) ""))
    eqn:E; [assumption|].
  apply (prefix_app "https://").
Qed.

(** X6: when one of the tenant, the application id, the client secret or the
    server URL is missing or empty, the write throws "Missing required
    environment variables for Dataverse connection" and does nothing else:
    no log, no call to the record store. *)
Theorem write_needs_configuration customerId email w :
  ~ store_configured (config env) ->
  run (SubscriptionCreator.writeCustomerToDataverse env customerId email) w
  = (Throw (new_Error "Missing required environment variables for Dataverse connection"),
     {| world := w; trace := [] |}).
Proof.
  intros Hc. unfold SubscriptionCreator.writeCustomerToDataverse, run.
  destruct (_ || _ || _ || _) eqn:E; [reflexivity|].
  exfalso. apply Hc. unfold store_configured.
  apply orb_false_elim in E as [E E4].
  apply orb_false_elim in E as [E E3].
  apply orb_false_elim in E as [E1 E2]. auto.
Qed.

Ltac write_start Hc :=
  let H1 := fresh in let H2 := fresh in let H3 := fresh in let H4 := fresh in
  destruct Hc as (H1 & H2 & H3 & H4);
  unfold SubscriptionCreator.writeCustomerToDataverse;
  rewrite H1, H2, H3, H4; cbn [orb].

(** X7: a server URL that the URL constructor refuses, after the scheme has
    been added, makes the write log the URL and throw "Invalid Dataverse
    URL: ..." without calling the record store. *)
Theorem write_refuses_invalid_url customerId email w :
  store_configured (config env) ->
  URL_valid (runtime env) (store_url (config env)) = false ->
  run (SubscriptionCreator.writeCustomerToDataverse env customerId email) w
  = (Throw (new_Error ("Invalid Dataverse URL: " ++ store_url (config env)
              ++ ". Please provide a valid URL like " ++ dquote
              ++ "https://yourorg.crm.dynamics.com" ++ dquote)),
     {| world := w;
        trace := [ContextError
                    [VString ("Invalid Dataverse URL format: "
                              ++ store_url (config env))]] |}).
Proof.
  intros Hc Hu. unfold run. write_start Hc.
  unfold store_url in Hu |- *. cbv zeta in Hu |- *.
  destruct (String.prefix "https://" _); cbn [negb]; rewrite Hu; reflexivity.
Qed.

Lemma store_url_normal :
  (if negb (String.prefix "https://"
              (SubscriptionCreator.env_or (DATAVERSE_URL (config env)) ""))
   then "https://" ++ SubscriptionCreator.env_or (DATAVERSE_URL (config env)) ""
   else SubscriptionCreator.env_or (DATAVERSE_URL (config env)) "")
  = store_url (config env).
Proof.
  unfold store_url. cbv zeta.
  destruct (String.prefix "https://" _); reflexivity.
Qed.

(** The write once the client is built: the create call, then the log of
    the id or of the error. *)
Lemma write_after_create customerId email w :
  store_configured (config env) ->
  URL_valid (runtime env) (store_url (config env)) = true ->
  DynamicsWebApi_new env (store_url (config env)) = Ok tt ->
  run (SubscriptionCreator.writeCustomerToDataverse env customerId email) w
  = match run (store_create env customerId email) w with
    | (Ok created, st) =>
        match ToString (runtime env) created with
        | Ok shown =>
            (Ok created,
             {| world := world st;
                trace := trace st
                         ++ [ContextLog
                               [VString ("Successfully created record in Dataverse with ID: "
                                         ++ shown)]] |})
        | Throw error =>
            (Throw error,
             {| world := world st;
                trace := trace st
                         ++ [ContextError
                               [VString "Error creating record in Dataverse:"; error]] |})
        end
    | (Throw error, st) =>
        (Throw error,
         {| world := world st;
            trace := trace st
                     ++ [ContextError
                           [VString "Error creating record in Dataverse:"; error]] |})
    end.
Proof.
  intros Hc Hu Hn. unfold run. write_start Hc.
  cbv zeta. rewrite store_url_normal.
  fold (store_callback env).
  change (SubscriptionCreator.env_or (ENTITY_NAME (config env)) "contacts")
    with (store_collection (config env)).
  change (SubscriptionCreator.make_record
            (SubscriptionCreator.env_or (CLIENT_ID_FIELD (config env)) "mollie_customer_id")
            (SubscriptionCreator.env_or (EMAIL_FIELD (config env)) "emailaddress1")
            customerId email)
    with (store_record (config env) customerId email).
  fold (store_create env customerId email).
  cbv beta iota zeta delta [bind try_catch lift ret throw emit context_log context_error].
  rewrite Hu, Hn.
  destruct (store_create env customerId email _) as [[created|error] [w' tr']];
    [destruct (ToString (runtime env) created)|]; reflexivity.
Qed.

Lemma store_create_events customerId email (w : W) :
  exists events,
    filter is_external_call events = []
    /\ trace (snd (run (store_create env customerId email) w))
       = DynamicsCreate (store_url (config env)) (store_collection (config env))
           (store_record (config env) customerId email) :: events.
Proof.
  destruct (create_frame env (store_callback env) (store_url (config env))
              (store_collection (config env)) (store_record (config env) customerId email)
              w (acquireToken_framed env _ _ _ _) (acquireToken_quiet env _ _ _ _))
    as (created & w' & events & Hev & Hcreate).
  exists events. split; [assumption|].
  unfold run, store_create. now rewrite Hcreate.
Qed.

Lemma lookup_overwrite_same key v fields x :
  lookup key fields = Some x -> lookup key (overwrite key v fields) = Some v.
Proof.
  induction fields as [|[k y] fields IH]; [discriminate 1|].
  cbn [lookup overwrite]. destruct (String.eqb k key) eqn:E; cbn [lookup]; rewrite E; auto.
Qed.

Lemma lookup_overwrite_other key other v fields :
  other <> key -> lookup other (overwrite key v fields) = lookup other fields.
Proof.
  intros Hne. induction fields as [|[k y] fields IH]; [reflexivity|].
  cbn [lookup overwrite]. destruct (String.eqb k key) eqn:E; cbn [lookup].
  - apply String.eqb_eq in E. subst k.
    now rewrite (proj2 (String.eqb_neq key other)) by congruence.
  - now rewrite IH.
Qed.

Lemma lookup_app_same key v fields :
  lookup key fields = None -> lookup key (fields ++ [(key, v)]) = Some v.
Proof.
  induction fields as [|[k y] fields IH]; cbn [lookup app].
  - now rewrite String.eqb_refl.
  - destruct (String.eqb k key); [discriminate 1 | exact IH].
Qed.

Lemma lookup_app_other key other v fields :
  other <> key -> lookup other (fields ++ [(key, v)]) = lookup other fields.
Proof.
  intros Hne. induction fields as [|[k y] fields IH]; cbn [lookup app].
  - now rewrite (proj2 (String.eqb_neq key other)) by congruence.
  - now rewrite IH.
Qed.

(** An assignment to a key other than [__proto__] is read back, and no
    assignment changes what the object holds under another key. *)
Lemma assign_same o key v :
  key <> "__proto__" -> lookup key (own (assign o key v)) = Some v.
Proof.
  intros Hk. apply String.eqb_neq in Hk. unfold assign.
  destruct (lookup key (own o)) eqn:E; cbn [own].
  - eapply lookup_overwrite_same; eassumption.
  - rewrite Hk. cbn [andb own]. now apply lookup_app_same.
Qed.

Lemma assign_other o key other v :
  other <> key -> lookup other (own (assign o key v)) = lookup other (own o).
Proof.
  intros Hne. unfold assign.
  destruct (lookup key (own o)); cbn [own].
  - now apply lookup_overwrite_other.
  - destruct (String.eqb key "__proto__" && reaches_proto_setter (prototype o)).
    + destruct v; reflexivity.
    + cbn [own]. now apply lookup_app_other.
Qed.

(** The record for field names other than [__proto__]. *)
Lemma make_record_ordinary clientIdField emailField customerId email :
  clientIdField <> "__proto__" ->
  emailField <> "__proto__" ->
  SubscriptionCreator.make_record clientIdField emailField customerId email
  = {| own := if String.eqb clientIdField emailField then [(emailField, email)]
              else [(clientIdField, customerId); (emailField, email)];
       prototype := None |}.
Proof.
  intros Hc He. apply String.eqb_neq in Hc, He.
  unfold SubscriptionCreator.make_record, assign, empty_object.
  cbn [own prototype lookup]. rewrite Hc. cbn [andb app lookup own prototype].
  destruct (String.eqb clientIdField emailField) eqn:E.
  - cbn [overwrite]. rewrite E. apply String.eqb_eq in E. now subst.
  - rewrite He. reflexivity.
Qed.

(** X8: with the store configured, the URL valid, the client built and field
    names other than [__proto__], the write makes one create call, at the
    https server URL, in the configured collection ("contacts" by default),
    with a record whose own properties are the customer id and the email
    under the configured names (the email alone when the names coincide) and
    whose prototype is untouched; when the client returns an id, the write
    logs it and returns it. *)
Theorem write_creates_record customerId email w created st shown :
  store_configured (config env) ->
  URL_valid (runtime env) (store_url (config env)) = true ->
  DynamicsWebApi_new env (store_url (config env)) = Ok tt ->
  store_id_field (config env) <> "__proto__" ->
  store_email_field (config env) <> "__proto__" ->
  run (store_create env customerId email) w = (Ok created, st) ->
  ToString (runtime env) created = Ok shown ->
  run (SubscriptionCreator.writeCustomerToDataverse env customerId email) w
  = (Ok created,
     {| world := world st;
        trace := trace st
                 ++ [ContextLog
                       [VString ("Successfully created record in Dataverse with ID: "
                                 ++ shown)]] |})
  /\ exists events,
       filter is_external_call events = []
       /\ trace st
          = DynamicsCreate (store_url (config env)) (store_collection (config env))
              {| own :=
                   if String.eqb (store_id_field (config env))
                        (store_email_field (config env))
                   then [(store_email_field (config env), email)]
                   else [(store_id_field (config env), customerId);
                         (store_email_field (config env), email)];
                 prototype := None |}
            :: events.
Proof.
  intros Hc Hu Hn Hid Hem Hrun Hs. split.
  - rewrite write_after_create by assumption. now rewrite Hrun, Hs.
  - destruct (store_create_events customerId email w) as (events & Hev & Htr).
    exists events. split; [assumption|].
    rewrite Hrun in Htr. cbn [snd] in Htr. rewrite Htr.
    unfold store_record. now rewrite make_record_ordinary.
Qed.


Lemma store_urls_external l : store_urls l = store_urls (filter is_external_call l).
Proof.
  induction l as [|ev l IH]; [reflexivity|].
  destruct ev; cbn [store_urls filter is_external_call]; rewrite ?IH; reflexivity.
Qed.

Lemma store_records_external l :
  store_records l = store_records (filter is_external_call l).
Proof.
  induction l as [|ev l IH]; [reflexivity|].
  destruct ev; cbn [store_records filter is_external_call]; rewrite ?IH; reflexivity.
Qed.

(** X10: whatever the configuration and the answers, the write calls the
    record store at most once, and only at a URL that starts with
    "https://" and that the URL constructor accepts. *)
Theorem write_targets_https customerId email w :
  let urls :=
    store_urls
      (trace (snd (run (SubscriptionCreator.writeCustomerToDataverse env customerId email) w)))
  in
  urls = []
  \/ (urls = [store_url (config env)]
      /\ String.prefix "https://" (store_url (config env)) = true
      /\ URL_valid (runtime env) (store_url (config env)) = true).
Proof.
  cbv zeta.
  destruct (writeCustomerToDataverse_run env customerId email w)
    as (result & w' & events & Hev & Hrun).
  unfold run. rewrite (Hrun []). cbn [snd trace app].
  rewrite store_urls_external.
  destruct Hev as [-> | (rest & Hrest & -> & Hv)]; [left; reflexivity|].
  right. cbn [filter is_external_call]. rewrite Hrest.
  split; [reflexivity|]. split; [apply store_url_https | assumption].
Qed.

(** X11: every record a run of the write sends to the store holds the email
    under the email field when that field is not named [__proto__], and the
    customer id under its field when that field is not named [__proto__] and
    differs from the email field; when the field of the customer id is named
    [__proto__] and the id is a string, the assignment stores nothing and
    the record holds the email alone. *)
Theorem sent_record_fields customerId email w data :
  In data
    (store_records
       (trace (snd (run (SubscriptionCreator.writeCustomerToDataverse env customerId email)
                      w)))) ->
  (store_email_field (config env) <> "__proto__" ->
   lookup (store_email_field (config env)) (own data) = Some email)
  /\ (store_id_field (config env) <> "__proto__" ->
      store_id_field (config env) <> store_email_field (config env) ->
      lookup (store_id_field (config env)) (own data) = Some customerId)
  /\ (store_id_field (config env) = "__proto__" ->
      store_email_field (config env) <> "__proto__" ->
      (exists s, customerId = VString s) ->
      data = {| own := [(store_email_field (config env), email)]; prototype := None |}).
Proof.
  destruct (writeCustomerToDataverse_run env customerId email w)
    as (result & w' & events & Hev & Hrun).
  unfold run. rewrite (Hrun []). cbn [snd trace app].
  rewrite store_records_external.
  destruct Hev as [-> | (rest & Hrest & -> & _)]; [contradiction|].
  cbn [filter is_external_call store_records]. rewrite Hrest.
  intros [<- | []].
  unfold store_record, SubscriptionCreator.make_record.
  split; [|split].
  - intros He. now apply assign_same.
  - intros Hc Hne. rewrite assign_other by assumption. now apply assign_same.
  - intros Hc He (s & ->). apply String.eqb_neq in He.
    rewrite Hc. unfold assign, empty_object. cbn [own prototype lookup].
    now rewrite He.
Qed.

(** X23: when the token request fails, the callback logs "Error acquiring
    token:" with the error and throws the very same value to the client. *)
Theorem token_failure_is_logged tenantId appId clientSecret dataverseUrl w error w' :
  ClientSecretCredential_new env tenantId appId clientSecret = Ok tt ->
  credential_getToken env tenantId appId clientSecret (dataverseUrl ++ "/.default") w
  = (Throw error, w') ->
  run (SubscriptionCreator.acquireToken env tenantId appId clientSecret dataverseUrl) w
  = (Throw error,
     {| world := w';
        trace := [GetToken (dataverseUrl ++ "/.default");
                  ContextError [VString "Error acquiring token:"; error]] |}).
Proof.
  intros Hc Hg. unfold SubscriptionCreator.acquireToken. eff_unfold.
  now rewrite Hc, Hg.
Qed.

(** X24: when the constructor of the record-store client throws, the write
    throws that value without any log and without calling the store: the
    constructor runs before the [try]. *)
Theorem client_constructor_failure customerId email w error :
  store_configured (config env) ->
  URL_valid (runtime env) (store_url (config env)) = true ->
  DynamicsWebApi_new env (store_url (config env)) = Throw error ->
  run (SubscriptionCreator.writeCustomerToDataverse env customerId email) w
  = (Throw error, {| world := w; trace := [] |}).
Proof.
  intros Hc Hu Hn. unfold run. write_start Hc.
  cbv zeta. rewrite store_url_normal.
  cbv beta iota zeta delta [bind try_catch lift ret throw emit context_log context_error].
  now rewrite Hu, Hn.
Qed.
End StoreWrite.

(** ** Further properties of the initial subscription *)

Section CreatorOrder.
Context {W : Type} (env : Env W) (request : HttpRequest W).

(** X12: a request without an email address, or with a falsy one, is
    answered with HTTP 400 "Email address is required"; no customer is
    created, nothing is written and no payment is created. *)
Theorem creator_missing_email_rejected w0 w1 requestBody :
  request_json request w0 = (Ok requestBody, w1) ->
  is_nullish requestBody = false ->
  truthy (GetOpt requestBody "email") = false ->
  outcome (SubscriptionCreator.initializeSubscription env request) w0
  = Ok (bad_request "Email address is required")
  /\ filter is_external_call
       (calls (SubscriptionCreator.initializeSubscription env request) w0)
     = [].
Proof.
  intros Hj Hn He.
  unfold outcome, calls, SubscriptionCreator.initializeSubscription.
  eff_unfold. rewrite Hj, !(Get_GetOpt _ requestBody) by assumption.
  rewrite He. split; reflexivity.
Qed.

Lemma writeCustomerToDataverse_external customerId email (w : W) :
  let made :=
    filter is_external_call
      (trace (snd (run (SubscriptionCreator.writeCustomerToDataverse env customerId email) w)))
  in
  made = [] \/ exists url collection data, made = [DynamicsCreate url collection data].
Proof.
  cbv zeta.
  destruct (writeCustomerToDataverse_run env customerId email w)
    as (result & w' & events & Hev & Hrun).
  unfold run. rewrite (Hrun []). cbn [snd trace app].
  destruct Hev as [-> | (rest & Hrest & -> & _)]; [left; reflexivity|].
  right. do 3 eexists. cbn [filter is_external_call]. now rewrite Hrest.
Qed.

(** X13: in every run the handler first creates the customer, then writes to
    the record store at most once, then creates the payment at most once; no
    write and no payment happens without the customer. *)
Theorem creator_calls_in_order w0 :
  let made :=
    filter is_external_call
      (calls (SubscriptionCreator.initializeSubscription env request) w0) in
  made = []
  \/ exists customer written paid,
       made = (AxiosPost (SubscriptionCreator.mollieClient env) "/customers" customer
               :: written ++ paid)%list
       /\ (written = [] \/ exists url collection data,
                             written = [DynamicsCreate url collection data])
       /\ (paid = [] \/ exists payment,
                          paid = [AxiosPost (SubscriptionCreator.mollieClient env)
                                    "/payments" payment]).
Proof.
  unfold calls.
  set (ext := fun p : Result HttpResponseInit * State W =>
                filter is_external_call (trace (snd p))).
  set (shape := fun made : list Event =>
         made = []
         \/ exists customer written paid,
              made = (AxiosPost (SubscriptionCreator.mollieClient env) "/customers" customer
                      :: written ++ paid)%list
              /\ (written = [] \/ exists url collection data,
                                    written = [DynamicsCreate url collection data])
              /\ (paid = [] \/ exists payment,
                                 paid = [AxiosPost (SubscriptionCreator.mollieClient env)
                                           "/payments" payment])).
  change (shape (ext (run (SubscriptionCreator.initializeSubscription env request) w0))).
  assert (Hcatch : forall e st, ext (catch_error env e st)
                                = filter is_external_call (trace st))
    by (intros; apply catch_error_external).
  assert (Hnone : shape []) by (left; reflexivity).
  assert (Hcust : forall customer, 
             shape [AxiosPost (SubscriptionCreator.mollieClient env) "/customers" customer]).
  { intros customer. right. exists customer, [], []. auto. }
  unfold SubscriptionCreator.initializeSubscription, SubscriptionCreator.post.
  eff_unfold.
  destruct (request_json request w0) as [[requestBody|e] w1];
    [|rewrite Hcatch; exact Hnone].
  destruct (Get (runtime env) requestBody "email") as [email|e];
    [|rewrite Hcatch; exact Hnone].
  destruct (Get (runtime env) requestBody "name") as [name|e];
    [|rewrite Hcatch; exact Hnone].
  destruct (Get (runtime env) requestBody "amount") as [amount|e];
    [|rewrite Hcatch; exact Hnone].
  destruct (truthy email); cbn [negb]; [|exact Hnone].
  destruct (ToString (runtime env) email) as [shown|e];
    [|rewrite Hcatch; exact Hnone].
  eff_unfold.
  destruct (truthy name);
    [|destruct (call_split_first (runtime env) email "@") as [name'|e];
      [|rewrite Hcatch; exact Hnone]].
  all: match goal with
       | |- context [axios_post env ?c "/customers" ?d ?w] =>
           destruct (axios_post env c "/customers" d w) as [[customerData|e] w2]
       end; [|rewrite Hcatch;
      cbv beta iota delta [filter is_external_call app trace]; apply Hcust].
  all: destruct (Get (runtime env) customerData "id") as [customerId|e];
    [|rewrite Hcatch;
      cbv beta iota delta [filter is_external_call app trace]; apply Hcust].
  all: destruct (ToString (runtime env) customerId) as [shown'|e];
    [|rewrite Hcatch;
      cbv beta iota delta [filter is_external_call app trace]; apply Hcust].
  all: rewrite writeCustomerToDataverse_frame; cbv zeta;
    pose proof (writeCustomerToDataverse_external customerId email w2) as Hw;
    cbv zeta in Hw;
    destruct (run (SubscriptionCreator.writeCustomerToDataverse env customerId email) w2)
      as [[r|e] [w3 tr3]];
    cbn [fst snd world trace] in *.
  all: match goal with
       | |- context [axios_post env ?c "/payments" ?d ?w] =>
           destruct (axios_post env c "/payments" d w) as [[paymentData|e'] w4]
       end.
  all: repeat match goal with
         | |- context [Get ?r ?v ?k] => destruct (Get r v k)
         end.
  all: rewrite ?Hcatch; unfold ext; cbn [snd trace];
    rewrite !filter_app; cbn [filter is_external_call app];
    rewrite ?app_nil_r;
    right; eexists; exists (filter is_external_call tr3);
    first [ exists []; split; [rewrite app_nil_r; reflexivity|]
          | eexists; split; [reflexivity|] ];
    (split; [exact Hw|]);
    solve [left; reflexivity | right; eexists; reflexivity].
Qed.

(** X14: when the provider refuses the customer, the handler answers with
    the failure response of that error; the record store is not written and
    no payment is created. *)
Theorem customer_refusal_stops w0 requestBody email w1 error w2 :
  request_json request w0 = (Ok requestBody, w1) ->
  GetOpt requestBody "email" = VString email ->
  email <> "" ->
  axios_post env (SubscriptionCreator.mollieClient env) "/customers"
    (customer_request requestBody email) w1
  = (Throw error, w2) ->
  is_nullish error = false ->
  outcome (SubscriptionCreator.initializeSubscription env request) w0
  = Ok (failure_response error)
  /\ filter is_external_call
       (calls (SubscriptionCreator.initializeSubscription env request) w0)
     = [AxiosPost (SubscriptionCreator.mollieClient env) "/customers"
          (customer_request requestBody email)].
Proof.
  intros Hj Hemail Hne Hc He.
  assert (Hn : is_nullish requestBody = false)
    by (destruct requestBody; try discriminate Hemail; reflexivity).
  apply String.eqb_neq in Hne.
  unfold outcome, calls, SubscriptionCreator.initializeSubscription,
    SubscriptionCreator.post.
  set (ext := fun p : Result HttpResponseInit * State W =>
                filter is_external_call (trace (snd p))).
  set (res := fun p : Result HttpResponseInit * State W => fst p).
  change (res (run (SubscriptionCreator.initializeSubscription env request) w0)
          = Ok (failure_response error)
          /\ ext (run (SubscriptionCreator.initializeSubscription env request) w0)
             = [AxiosPost (SubscriptionCreator.mollieClient env) "/customers"
                  (customer_request requestBody email)]).
  unfold SubscriptionCreator.initializeSubscription, SubscriptionCreator.post.
  eff_unfold.
  rewrite Hj, !(Get_GetOpt _ requestBody) by assumption.
  rewrite Hemail. cbn [truthy ToString call_split_first]. rewrite Hne. cbn [negb].
  unfold customer_request in Hc |- *.
  destruct (truthy (GetOpt requestBody "name")); eff_unfold; rewrite Hc;
    unfold res, ext; rewrite catch_error_external, catch_error_response by assumption;
    split; reflexivity.
Qed.

(** X15: an email that is truthy but not a string, in a request without a
    name, stops the handler before any call: reading [email.split] fails and
    the answer is a failure response with status 500. *)
Theorem non_string_email_fails w0 w1 requestBody email shown :
  request_json request w0 = (Ok requestBody, w1) ->
  GetOpt requestBody "email" = email ->
  truthy email = true ->
  (forall s, email <> VString s) ->
  ToString (runtime env) email = Ok shown ->
  truthy (GetOpt requestBody "name") = false ->
  exists response,
    outcome (SubscriptionCreator.initializeSubscription env request) w0 = Ok response
    /\ status response = VNumber 500
    /\ GetOpt (jsonBody response) "success" = VBool false
    /\ filter is_external_call
         (calls (SubscriptionCreator.initializeSubscription env request) w0)
       = [].
Proof.
  intros Hj Hemail Ht Hns Hts Hname.
  assert (Hn : is_nullish requestBody = false).
  { destruct requestBody; try reflexivity; subst email; discriminate Ht. }
  unfold outcome, calls, SubscriptionCreator.initializeSubscription.
  eff_unfold. rewrite Hj, !(Get_GetOpt _ requestBody) by assumption.
  rewrite Hemail, Ht, Hname. cbn [negb]. rewrite Hts. eff_unfold.
  destruct email; try discriminate Ht; try (exfalso; eapply Hns; reflexivity);
    cbn [call_split_first]; unfold catch_error; eff_unfold; cbn [Get engine_error lookup];
    eexists; repeat split; reflexivity.
Qed.
End CreatorOrder.

(** ** Further properties of the catch clause and of the start date *)

Section CatchMore.
Context {W : Type} (env : Env W) (request : HttpRequest W).

(** X16: whenever the catch clause answers, the status of the response is
    truthy (never missing, zero or empty), [success] is [false] and the error
    message is truthy (never missing or empty). *)
Theorem failure_response_is_well_formed e (st : State W) response :
  fst (catch_error env e st) = Ok response ->
  truthy (status response) = true
  /\ GetOpt (jsonBody response) "success" = VBool false
  /\ truthy (GetOpt (jsonBody response) "error") = true.
Proof.
  unfold catch_error. eff_unfold.
  destruct (Get (runtime env) e "response") as [r|]; [|discriminate 1].
  unfold or_else.
  destruct (truthy (GetOpt (GetOpt r "data") "detail")) eqn:Hd.
  - intros H. injection H as <-. cbn.
    destruct (truthy (GetOpt r "status")) eqn:Hs; auto.
  - destruct (Get (runtime env) e "message") as [m|]; [|discriminate 1].
    intros H. injection H as <-. cbn.
    destruct (truthy (GetOpt r "status")) eqn:Hs;
      destruct (truthy m) eqn:Hm; auto.
Qed.

(** X17: when a step of the activation throws [null] or [undefined], the
    catch clause itself fails on [error.response]: the handler returns no
    response, its promise rejects with the engine's TypeError. *)
Theorem nullish_exception_escapes w0 e :
  fails_with env request w0 e ->
  is_nullish e = true ->
  outcome (RecurringPaymentForm.initializeRecurringPayment env request) w0
  = Throw (engine_error (runtime env) (ReadOfNullish e "response")).
Proof.
  intros H He. unfold outcome.
  destruct H as [w1 Ht | b p w1 Ht Hid Hne Hc | b p w1 w2 Ht Hid Hne Hc Hg
                | payment w2 (b & p & w1 & Ht & Hid & Hne & Hc & Hg) Hp Hd
                | payment startDate w2 w3 Hr Hc
                | payment subscription w3 w4 Hr Hu].
  - unfold RecurringPaymentForm.initializeRecurringPayment.
    eff_unfold. rewrite Ht. now rewrite catch_error_nullish.
  - erewrite run_client_fails by eassumption. now rewrite catch_error_nullish.
  - erewrite run_lookup_fails by eassumption. now rewrite catch_error_nullish.
  - erewrite run_start_date_fails by eassumption. now rewrite catch_error_nullish.
  - destruct (run_reaches_creation _ _ _ _ _ _ Hr) as (pre & _ & _ & Hrun).
    cbv zeta in Hrun. rewrite Hrun, Hc. now rewrite catch_error_nullish.
  - destruct Hr as (startDate & w2 & Hr & Hc).
    destruct (run_reaches_creation _ _ _ _ _ _ Hr) as (pre & _ & _ & Hrun).
    cbv zeta in Hrun. rewrite Hrun, Hc, Hu. now rewrite catch_error_nullish.
Qed.
End CatchMore.

(** X18: in any time zone, the start instant is thirty days after the
    clock's reading, shifted by the difference between the zone's offset at
    the reading and its offset at the local time thirty days later; it is an
    invalid date when that instant leaves the range of [Date]. *)
Theorem start_time_in_any_zone rt now :
  start_time rt (Some now)
  = ESDate.TimeClip
      (now + 30 * ESDate.msPerDay
       + (LocalTZA rt now true
          - LocalTZA rt (now + LocalTZA rt now true + 30 * ESDate.msPerDay) false)).
Proof.
  unfold start_time. cbn [ESDate.setDate ESDate.getDate option_map].
  unfold ESDate.LocalTime, ESDate.UTC.
  rewrite ESDateFacts.MakeDay_shift, ESDateFacts.MakeDate_shift.
  f_equal. lia.
Qed.

Section CreatorMore.
Context {W : Type} (env : Env W) (request : HttpRequest W).

(** The run of the handler once the customer exists, for every outcome of
    the record-store write. *)
Lemma run_after_customer w0 requestBody email customerId w2 result st :
  customer_created env request w0 requestBody email customerId w2 ->
  run (SubscriptionCreator.writeCustomerToDataverse env (VString customerId)
         (VString email)) w2
  = (result, st) ->
  exists pre,
    filter is_external_call pre
    = (AxiosPost (SubscriptionCreator.mollieClient env) "/customers"
         (customer_request requestBody email)
       :: filter is_external_call (trace st))%list
    /\ run (SubscriptionCreator.initializeSubscription env request) w0
       = try_catch
           (paymentData <-
              SubscriptionCreator.post env "/payments"
                (SubscriptionCreator.first_payment env (GetOpt requestBody "amount")
                   (VString customerId)) ;;
            paymentId <- lift (Get (runtime env) paymentData "id") ;;
            links <- lift (Get (runtime env) paymentData "_links") ;;
            checkout <- lift (Get (runtime env) links "checkout") ;;
            href <- lift (Get (runtime env) checkout "href") ;;
            ret {| status := VNumber 200;
                   body := VUndefined;
                   jsonBody :=
                     VObject [("success", VBool true);
                              ("customerId", VString customerId);
                              ("paymentId", paymentId);
                              ("checkoutUrl", href)] |})
           (catch_error env)
           {| world := world st; trace := pre |}.
Proof.
  intros (w1 & customerData & Hj & Hemail & Hne & Hc & Hid) Hw.
  assert (Hn : is_nullish requestBody = false)
    by (destruct requestBody; try discriminate Hemail; reflexivity).
  assert (Hn2 : is_nullish customerData = false)
    by (destruct customerData; try discriminate Hid; reflexivity).
  apply String.eqb_neq in Hne.
  unfold SubscriptionCreator.initializeSubscription, SubscriptionCreator.post.
  eff_unfold.
  rewrite Hj, !(Get_GetOpt _ requestBody) by assumption.
  rewrite Hemail. cbn [truthy ToString call_split_first]. rewrite Hne. cbn [negb].
  unfold customer_request in Hc |- *.
  destruct (truthy (GetOpt requestBody "name")); eff_unfold;
    rewrite Hc, (Get_GetOpt _ customerData), Hid by assumption;
    cbn [ToString]; eff_unfold;
    rewrite writeCustomerToDataverse_frame; cbv zeta; rewrite Hw;
    destruct st as [w3 tr3]; destruct result as [r|e]; eff_unfold;
    eexists; (split; [|reflexivity]);
    rewrite !filter_app; cbn [filter is_external_call app];
    rewrite ?app_nil_r; reflexivity.
Qed.

(** X19: the response of a successful initial subscription does not depend
    on the record-store write: whether the write returns or throws, the
    handler creates the first payment in the world the write leaves and
    answers HTTP 200 with the customer id, the payment id and the checkout
    URL. *)
Theorem response_ignores_record_store
    w0 requestBody email customerId w2 result st paymentData w4 paymentId href :
  customer_created env request w0 requestBody email customerId w2 ->
  run (SubscriptionCreator.writeCustomerToDataverse env (VString customerId)
         (VString email)) w2
  = (result, st) ->
  axios_post env (SubscriptionCreator.mollieClient env) "/payments"
    (SubscriptionCreator.first_payment env (GetOpt requestBody "amount")
       (VString customerId)) (world st)
  = (Ok paymentData, w4) ->
  checkout_link env paymentData paymentId href ->
  outcome (SubscriptionCreator.initializeSubscription env request) w0
  = Ok {| status := VNumber 200;
          body := VUndefined;
          jsonBody := VObject [("success", VBool true);
                               ("customerId", VString customerId);
                               ("paymentId", paymentId);
                               ("checkoutUrl", href)] |}.
Proof.
  intros Hc Hw Hp (links & checkout & Hg1 & Hg2 & Hg3 & Hg4).
  destruct (run_after_customer _ _ _ _ _ _ _ Hc Hw) as (pre & _ & Hrun).
  unfold outcome. rewrite Hrun.
  destruct st as [w3 tr3]. cbn [world] in Hp.
  unfold SubscriptionCreator.post. eff_unfold.
  rewrite Hp, Hg1, Hg2. eff_unfold. rewrite Hg3. eff_unfold. now rewrite Hg4.
Qed.

(** X20: when the provider refuses the first payment, the handler answers
    with the failure response of that error and undoes nothing: the customer
    it created and the record it may have written stay. *)
Theorem payment_refusal_keeps_customer
    w0 requestBody email customerId w2 result st error w4 :
  customer_created env request w0 requestBody email customerId w2 ->
  run (SubscriptionCreator.writeCustomerToDataverse env (VString customerId)
         (VString email)) w2
  = (result, st) ->
  axios_post env (SubscriptionCreator.mollieClient env) "/payments"
    (SubscriptionCreator.first_payment env (GetOpt requestBody "amount")
       (VString customerId)) (world st)
  = (Throw error, w4) ->
  is_nullish error = false ->
  outcome (SubscriptionCreator.initializeSubscription env request) w0
  = Ok (failure_response error)
  /\ filter is_external_call
       (calls (SubscriptionCreator.initializeSubscription env request) w0)
     = (AxiosPost (SubscriptionCreator.mollieClient env) "/customers"
          (customer_request requestBody email)
        :: filter is_external_call (trace st)
        ++ [AxiosPost (SubscriptionCreator.mollieClient env) "/payments"
              (SubscriptionCreator.first_payment env (GetOpt requestBody "amount")
                 (VString customerId))])%list.
Proof.
  intros Hc Hw Hp He.
  destruct (run_after_customer _ _ _ _ _ _ _ Hc Hw) as (pre & Hpre & Hrun).
  unfold outcome, calls. rewrite Hrun.
  destruct st as [w3 tr3]. cbn [world trace] in *.
  unfold SubscriptionCreator.post.
  cbv beta iota zeta delta [bind try_catch await lift ret]. cbn [world trace].
  rewrite Hp. split.
  - now apply catch_error_response.
  - rewrite catch_error_external. cbn [trace].
    rewrite filter_app, Hpre. reflexivity.
Qed.
End CreatorMore.

(** ** The further properties on the sample deployments *)

Lemma webhook_missing_id_rejected_witness :
  outcome
    (RecurringPaymentForm.initializeRecurringPayment
       (Sample.env (Ok Sample.paid) (Ok Sample.active) (Ok tt))
       (Sample.request (Ok VNull) (Ok "payment=tr_1"))) Sample.clock
  = Ok (bad_request "Missing payment ID").
Proof.
  refine (proj1 (webhook_missing_id_rejected _ _ Sample.clock Sample.clock
                   "payment=tr_1" _ _)); [reflexivity | left; reflexivity].
Defined.

Lemma legacy_activation_witness :
  outcome
    (RecurringPaymentJson.initializeRecurringPayment
       (Sample.env (Ok Sample.paid) (Ok Sample.active) (Ok tt))
       (Sample.request
          (Ok (VObject [("customerId", VString "cst_1"); ("success", VBool true)]))
          (Ok ""))) Sample.clock
  = Ok success_response.
Proof.
  refine (proj1 (legacy_activation _ _ Sample.clock Sample.clock
                   (VObject [("customerId", VString "cst_1"); ("success", VBool true)])
                   "2025-03-31" Sample.active Sample.clock Sample.clock _ _ _ _ _ _));
    reflexivity.
Defined.

Lemma legacy_null_body_fails_witness :
  filter is_external_call
    (calls
       (RecurringPaymentJson.initializeRecurringPayment
          (Sample.env (Ok Sample.paid) (Ok Sample.active) (Ok tt))
          (Sample.request (Ok VNull) (Ok ""))) Sample.clock)
  = [].
Proof.
  refine (proj2 (legacy_null_body_fails _ _ Sample.clock Sample.clock _)).
  reflexivity.
Defined.

Lemma write_needs_configuration_witness :
  run
    (SubscriptionCreator.writeCustomerToDataverse
       (Sample.env (Ok Sample.paid) (Ok Sample.active) (Ok tt))
       (VString "cst_1") (VString "anna@example.org")) Sample.clock
  = (Throw (new_Error "Missing required environment variables for Dataverse connection"),
     {| world := Sample.clock; trace := [] |}).
Proof.
  apply write_needs_configuration.
  intros (H & _). discriminate H.
Defined.

Lemma shop_configured valid posted created :
  store_configured (config (Shop.env valid posted created)).
Proof. repeat split. Defined.

Lemma write_refuses_invalid_url_witness :
  fst (run
         (SubscriptionCreator.writeCustomerToDataverse
            (Shop.env false Shop.accepts (Ok (VString "record_1")))
            (VString "cst_1") (VString "anna@example.org")) Sample.clock)
  = Throw (new_Error ("Invalid Dataverse URL: https://org.crm4.dynamics.com"
             ++ ". Please provide a valid URL like " ++ dquote
             ++ "https://yourorg.crm.dynamics.com" ++ dquote)).
Proof.
  rewrite (write_refuses_invalid_url
             (Shop.env false Shop.accepts (Ok (VString "record_1")))
             (VString "cst_1") (VString "anna@example.org") Sample.clock
             (shop_configured _ _ _) eq_refl).
  reflexivity.
Defined.

Lemma write_creates_record_witness :
  fst (run
         (SubscriptionCreator.writeCustomerToDataverse
            (Shop.env true Shop.accepts (Ok (VString "record_1")))
            (VString "cst_1") (VString "anna@example.org")) Sample.clock)
  = Ok (VString "record_1").
Proof.
  rewrite (proj1 (write_creates_record
                    (Shop.env true Shop.accepts (Ok (VString "record_1")))
                    (VString "cst_1") (VString "anna@example.org") Sample.clock
                    (VString "record_1") _ "record_1"
                    (shop_configured _ _ _) eq_refl eq_refl
                    ltac:(discriminate) ltac:(discriminate)
                    (surjective_pairing _) eq_refl)).
  reflexivity.
Defined.


Lemma sent_record_fields_witness :
  lookup "emailaddress1"
    [("mollie_customer_id", VString "cst_1");
     ("emailaddress1", VString "anna@example.org")]
  = Some (VString "anna@example.org").
Proof.
  refine (proj1 (sent_record_fields
                   (Shop.env true Shop.accepts (Ok (VString "record_1")))
                   (VString "cst_1") (VString "anna@example.org") Sample.clock
                   {| own := [("mollie_customer_id", VString "cst_1");
                              ("emailaddress1", VString "anna@example.org")];
                      prototype := None |} _) _).
  - left. reflexivity.
  - discriminate.
Defined.

Lemma token_failure_is_logged_witness :
  run
    (SubscriptionCreator.acquireToken
       (Shop.offline (Throw (Sample.http_error 401 "Invalid client secret")) (Ok tt))
       "tenant" "application" "secret" "https://org.crm4.dynamics.com") Sample.clock
  = (Throw (Sample.http_error 401 "Invalid client secret"),
     {| world := Sample.clock;
        trace := [GetToken "https://org.crm4.dynamics.com/.default";
                  ContextError
                    [VString "Error acquiring token:";
                     Sample.http_error 401 "Invalid client secret"]] |}).
Proof.
  exact (token_failure_is_logged
           (Shop.offline (Throw (Sample.http_error 401 "Invalid client secret")) (Ok tt))
           "tenant" "application" "secret" "https://org.crm4.dynamics.com" Sample.clock
           (Sample.http_error 401 "Invalid client secret") Sample.clock eq_refl eq_refl).
Defined.

Lemma client_constructor_failure_witness :
  run
    (SubscriptionCreator.writeCustomerToDataverse
       (Shop.offline (Ok "token_1") (Throw (new_Error "Invalid configuration")))
       (VString "cst_1") (VString "anna@example.org")) Sample.clock
  = (Throw (new_Error "Invalid configuration"),
     {| world := Sample.clock; trace := [] |}).
Proof.
  apply client_constructor_failure; try reflexivity.
  repeat split.
Defined.

Lemma creator_missing_email_rejected_witness :
  outcome
    (SubscriptionCreator.initializeSubscription
       (Shop.env true Shop.accepts (Ok (VString "record_1")))
       (Sample.request (Ok (VObject [("name", VString "Anna")])) (Ok ""))) Sample.clock
  = Ok (bad_request "Email address is required").
Proof.
  refine (proj1 (creator_missing_email_rejected _ _ Sample.clock Sample.clock
                   (VObject [("name", VString "Anna")]) _ _ _)); reflexivity.
Defined.

Lemma customer_refusal_stops_witness :
  outcome
    (SubscriptionCreator.initializeSubscription
       (Shop.env true Shop.refuses_customer (Ok (VString "record_1")))
       (Sample.request (Ok Shop.anna) (Ok ""))) Sample.clock
  = Ok {| status := VNumber 422;
          body := VUndefined;
          jsonBody := VObject [("success", VBool false);
                               ("error", VString "The email address is invalid")] |}.
Proof.
  refine (proj1 (customer_refusal_stops _ _ Sample.clock Shop.anna "anna@example.org"
                   Sample.clock
                   (Sample.http_error 422 "The email address is invalid") Sample.clock
                   _ _ _ _ _)); try reflexivity.
  discriminate.
Defined.

Lemma non_string_email_fails_witness :
  exists response,
    outcome
      (SubscriptionCreator.initializeSubscription
         (Shop.env true Shop.accepts (Ok (VString "record_1")))
         (Sample.request (Ok (VObject [("email", VBool true)])) (Ok ""))) Sample.clock
    = Ok response
    /\ status response = VNumber 500
    /\ GetOpt (jsonBody response) "success" = VBool false
    /\ filter is_external_call
         (calls
            (SubscriptionCreator.initializeSubscription
               (Shop.env true Shop.accepts (Ok (VString "record_1")))
               (Sample.request (Ok (VObject [("email", VBool true)])) (Ok "")))
            Sample.clock)
       = [].
Proof.
  refine (non_string_email_fails _ _ Sample.clock Sample.clock
            (VObject [("email", VBool true)]) (VBool true) "true" _ _ _ _ _ _);
    try reflexivity.
  intros s. discriminate.
Defined.

Lemma failure_response_is_well_formed_witness :
  truthy (VNumber 404) = true
  /\ GetOpt (VObject [("success", VBool false); ("error", VString "No payment exists")])
       "success"
     = VBool false
  /\ truthy
       (GetOpt (VObject [("success", VBool false); ("error", VString "No payment exists")])
          "error")
     = true.
Proof.
  exact (failure_response_is_well_formed
           (Sample.env (Ok Sample.paid) (Ok Sample.active) (Ok tt))
           (Sample.http_error 404 "No payment exists")
           {| world := Sample.clock; trace := [] |}
           {| status := VNumber 404;
              body := VUndefined;
              jsonBody := VObject [("success", VBool false);
                                   ("error", VString "No payment exists")] |}
           eq_refl).
Defined.

Lemma nullish_exception_escapes_witness :
  outcome
    (RecurringPaymentForm.initializeRecurringPayment
       (Sample.env (Ok Sample.paid) (Ok Sample.active) (Ok tt))
       (Sample.request (Ok VNull) (Throw VUndefined))) Sample.clock
  = Throw (engine_error Sample.host (ReadOfNullish VUndefined "response")).
Proof.
  apply (nullish_exception_escapes
           (Sample.env (Ok Sample.paid) (Ok Sample.active) (Ok tt))
           (Sample.request (Ok VNull) (Throw VUndefined)) Sample.clock VUndefined).
  - apply (fails_body_parsing _ _ _ _ Sample.clock). reflexivity.
  - reflexivity.
Defined.

Lemma shop_customer_created valid posted created :
  posted "/customers" = Ok Sample.customer ->
  customer_created (Shop.env valid posted created) (Sample.request (Ok Shop.anna) (Ok ""))
    Sample.clock Shop.anna "anna@example.org" "cst_1" Sample.clock.
Proof.
  intros Hp. exists Sample.clock, Sample.customer.
  repeat split; try reflexivity; [discriminate|].
  cbn. now rewrite Hp.
Defined.

Lemma response_ignores_record_store_witness :
  outcome
    (SubscriptionCreator.initializeSubscription
       (Shop.env true Shop.accepts (Ok (VString "record_1")))
       (Sample.request (Ok Shop.anna) (Ok ""))) Sample.clock
  = Ok {| status := VNumber 200;
          body := VUndefined;
          jsonBody := VObject [("success", VBool true);
                               ("customerId", VString "cst_1");
                               ("paymentId", VString "tr_1");
                               ("checkoutUrl", VString "https://pay.example.org/tr_1")] |}.
Proof.
  refine (response_ignores_record_store
            (Shop.env true Shop.accepts (Ok (VString "record_1")))
            _ _ _ _ _ _ _ _ Sample.first_payment_data Sample.clock _ _
            (shop_customer_created true Shop.accepts _ eq_refl)
            (surjective_pairing _) _ _).
  - reflexivity.
  - exists (VObject [("checkout",
                      VObject [("href", VString "https://pay.example.org/tr_1")])]),
      (VObject [("href", VString "https://pay.example.org/tr_1")]).
    repeat split.
Defined.

Lemma payment_refusal_keeps_customer_witness :
  outcome
    (SubscriptionCreator.initializeSubscription
       (Shop.env true Shop.refuses_payment (Ok (VString "record_1")))
       (Sample.request (Ok Shop.anna) (Ok ""))) Sample.clock
  = Ok {| status := VNumber 422;
          body := VUndefined;
          jsonBody := VObject [("success", VBool false);
                               ("error", VString "The amount is invalid")] |}.
Proof.
  refine (proj1 (payment_refusal_keeps_customer
                   (Shop.env true Shop.refuses_payment (Ok (VString "record_1")))
                   _ _ _ _ _ _ _ _
                   (Sample.http_error 422 "The amount is invalid") Sample.clock
                   (shop_customer_created true Shop.refuses_payment _ eq_refl)
                   (surjective_pairing _) _ _)); reflexivity.
Defined.

Section MoreEdges.
Context {W : Type} (env : Env W) (request : HttpRequest W).

(** X21: the legacy webhook rejects every payload whose [success] is falsy
    or missing ([false], [0], the empty string, [null], no field at all) with
    HTTP 400 and calls no collaborator. *)
Theorem legacy_rejects_falsy_success w0 w1 requestBody :
  request_json request w0 = (Ok requestBody, w1) ->
  is_nullish requestBody = false ->
  truthy (GetOpt requestBody "success") = false ->
  outcome (RecurringPaymentJson.initializeRecurringPayment env request) w0
  = Ok (bad_request "Payment was not successful")
  /\ filter is_external_call
       (calls (RecurringPaymentJson.initializeRecurringPayment env request) w0)
     = [].
Proof.
  intros Hj Hn Hs.
  unfold outcome, calls, RecurringPaymentJson.initializeRecurringPayment.
  eff_unfold. rewrite Hj, !(Get_GetOpt _ requestBody) by assumption.
  rewrite Hs. split; reflexivity.
Qed.

Lemma split_first_lacks sep s : lacks sep (split_first sep s).
Proof.
  unfold lacks. induction s as [|c s IH]; [reflexivity|].
  cbn [split_first]. destruct (Ascii.eqb c sep) eqn:E; [reflexivity|].
  cbn [split_first]. now rewrite E, IH.
Qed.

Lemma split_first_prefix sep s : String.prefix (split_first sep s) s = true.
Proof.
  induction s as [|c s IH]; [reflexivity|].
  cbn [split_first]. destruct (Ascii.eqb c sep); [reflexivity|].
  cbn [String.prefix]. destruct (ascii_dec c c); [assumption | contradiction].
Qed.

(** X22: for a request with a non-empty email string, the first call of
    every run creates the customer with that email and with the name of the
    request when it is truthy, and otherwise with the part of the email
    before the first at sign, a prefix of the email that holds no at sign. *)
Theorem customer_name_defaults w0 w1 requestBody email :
  request_json request w0 = (Ok requestBody, w1) ->
  GetOpt requestBody "email" = VString email ->
  email <> "" ->
  (exists rest,
     filter is_external_call
       (calls (SubscriptionCreator.initializeSubscription env request) w0)
     = AxiosPost (SubscriptionCreator.mollieClient env) "/customers"
         (VObject
            [("email", VString email);
             ("name",
              if truthy (GetOpt requestBody "name") then GetOpt requestBody "name"
              else VString (split_first "@" email))])
       :: rest)
  /\ lacks "@" (split_first "@" email)
  /\ String.prefix (split_first "@" email) email = true.
Proof.
  intros Hj Hemail Hne.
  split; [|split; [apply split_first_lacks | apply split_first_prefix]].
  assert (Hn : is_nullish requestBody = false)
    by (destruct requestBody; try discriminate Hemail; reflexivity).
  apply String.eqb_neq in Hne.
  unfold calls.
  set (ext := fun p : Result HttpResponseInit * State W =>
                filter is_external_call (trace (snd p))).
  change (exists rest,
            ext (run (SubscriptionCreator.initializeSubscription env request) w0)
            = AxiosPost (SubscriptionCreator.mollieClient env) "/customers"
                (VObject
                   [("email", VString email);
                    ("name",
                     if truthy (GetOpt requestBody "name")
                     then GetOpt requestBody "name"
                     else VString (split_first "@" email))])
              :: rest).
  assert (Hcatch : forall e st, ext (catch_error env e st)
                                = filter is_external_call (trace st))
    by (intros; apply catch_error_external).
  unfold SubscriptionCreator.initializeSubscription, SubscriptionCreator.post.
  eff_unfold.
  rewrite Hj, !(Get_GetOpt _ requestBody) by assumption.
  rewrite Hemail. cbn [truthy ToString call_split_first]. rewrite Hne. cbn [negb].
  destruct (truthy (GetOpt requestBody "name")); eff_unfold.
  all: match goal with
       | |- context [axios_post env ?c "/customers" ?d ?w] =>
           destruct (axios_post env c "/customers" d w) as [[customerData|e] w2]
       end; [|eexists; rewrite Hcatch; reflexivity].
  all: destruct (Get (runtime env) customerData "id") as [customerId|e];
    [|eexists; rewrite Hcatch; reflexivity].
  all: destruct (ToString (runtime env) customerId) as [shown'|e];
    [|eexists; rewrite Hcatch; reflexivity].
  all: rewrite writeCustomerToDataverse_frame; cbv zeta;
    destruct (run (SubscriptionCreator.writeCustomerToDataverse env customerId
                     (VString email)) w2)
      as [[r|e] [w3 tr3]];
    cbn [fst snd world trace] in *.
  all: match goal with
       | |- context [axios_post env ?c "/payments" ?d ?w] =>
           destruct (axios_post env c "/payments" d w) as [[paymentData|e'] w4]
       end.
  all: repeat match goal with
         | |- context [Get ?r ?v ?k] => destruct (Get r v k)
         end.
  all: rewrite ?Hcatch; unfold ext; cbn [snd trace];
    rewrite !filter_app; cbn [filter is_external_call app];
    eexists; reflexivity.
Qed.
End MoreEdges.

Lemma legacy_rejects_falsy_success_witness :
  outcome
    (RecurringPaymentJson.initializeRecurringPayment
       (Sample.env (Ok Sample.paid) (Ok Sample.active) (Ok tt))
       (Sample.request (Ok (VObject [("customerId", VString "cst_1")])) (Ok "")))
    Sample.clock
  = Ok (bad_request "Payment was not successful").
Proof.
  refine (proj1 (legacy_rejects_falsy_success _ _ Sample.clock Sample.clock
                   (VObject [("customerId", VString "cst_1")]) _ _ _)); reflexivity.
Defined.

Lemma customer_name_defaults_witness :
  lacks "@" (split_first "@" "anna@example.org")
  /\ String.prefix (split_first "@" "anna@example.org") "anna@example.org" = true.
Proof.
  refine (proj2 (customer_name_defaults
                   (Shop.env true Shop.accepts (Ok (VString "record_1")))
                   (Sample.request (Ok Shop.anna) (Ok "")) Sample.clock Sample.clock
                   Shop.anna "anna@example.org" _ _ _)); try reflexivity.
  discriminate.
Defined.
